(** * libfprint: the device action dispatcher (fp-device.c) and the
      wire constants of the mafpmoc driver (drivers/mafpmoc/mafpmoc.h)

    A shallow embedding.  The public entry points of [fp-device.c] are
    written in a small monad over the private device structure; every call
    that leaves the file (a driver entry point, a task resolution, a helper
    of fpi-device.c) is recorded, in order, in a list of events. *)

From Stdlib Require Import ZArith List Bool String Lia.
Import ListNotations.
Local Open Scope Z_scope.

(* ================================================================== *)
(** ** drivers/mafpmoc/mafpmoc.h *)
(* ================================================================== *)

Module Mafpmoc.

Definition MAFP_USB_BUFFER_SIZE : Z := 512.
Definition PACKAGE_CRC_SIZE : Z := 2.
Definition PACKAGE_HEADER_SIZE : Z := 9.
Definition PACKAGE_DATA_SIZE_MAX : Z :=
  MAFP_USB_BUFFER_SIZE - PACKAGE_HEADER_SIZE - PACKAGE_CRC_SIZE.

Definition TEMPLATE_ID_SIZE : Z := 2.
Definition TEMPLATE_UID_SIZE : Z := 128.
Definition DEVICE_SN_SIZE : Z := 32.
Definition MAX_FINGER_NUM : Z := 10.
Definition MAX_USER_NUM : Z := 3.
Definition MAX_NOTEPAD_PAGE : Z := 16.

Definition MAFP_HANDSHAKE_CODE1 : Z := 77. (* 'M' *)
Definition MAFP_HANDSHAKE_CODE2 : Z := 65. (* 'A' *)

(** The scalar types the header's structures are made of. *)
Inductive CType := uint8_t | char | uint16_t | uint32_t.

Definition sizeof_ctype (t : CType) : Z :=
  match t with
  | uint8_t => 1
  | char => 1
  | uint16_t => 2
  | uint32_t => 4
  end.

(** A member of a structure: its name, its element type and the number of
    elements (1 for a scalar, the bound for an array). *)
Record Member := mkMember { m_name : string; m_type : CType; m_count : Z }.

Definition Struct := list Member.

(** Size of a structure whose members are laid out without padding: the
    structures below are declared under [#pragma pack(push, 1)], and
    [pack_header] has byte members only. *)
Fixpoint sizeof_packed (st : Struct) : Z :=
  match st with
  | [] => 0
  | m :: rest => sizeof_ctype (m_type m) * m_count m + sizeof_packed rest
  end.

(** Number of elements of the member called [name], 0 when absent. *)
Fixpoint member_count (name : string) (st : Struct) : Z :=
  match st with
  | [] => 0
  | m :: rest =>
      if String.eqb (m_name m) name then m_count m
      else member_count name rest
  end.

Definition mafp_handshake_t : Struct :=
  [ mkMember "code" uint8_t 2 ].

Definition mafp_search_t : Struct :=
  [ mkMember "id" uint8_t 2; mkMember "score" uint8_t 2 ].

Definition mafp_tpl_table_t : Struct :=
  [ mkMember "used_num" uint8_t 1; mkMember "list" uint8_t 256 ].

Definition mafp_tpl_info_t : Struct :=
  [ mkMember "uid" char 128 ].

Definition mafp_template_t : Struct :=
  [ mkMember "sn" char 32; mkMember "id" uint16_t 1;
    mkMember "uid" char 128 ].

Definition pack_header : Struct :=
  [ mkMember "head0" uint8_t 1; mkMember "head1" uint8_t 1;
    mkMember "addr0" uint8_t 1; mkMember "addr1" uint8_t 1;
    mkMember "addr2" uint8_t 1; mkMember "addr3" uint8_t 1;
    mkMember "flag" uint8_t 1;
    mkMember "frame_len0" uint8_t 1; mkMember "frame_len1" uint8_t 1 ].

(** [mafp_templates_t]: the bounds of its two arrays of
    [mafp_template_t]. *)
Definition mafp_templates_total_list_len : Z := 256.
Definition mafp_templates_priv_list_len : Z := MAX_FINGER_NUM.

End Mafpmoc.

(* ================================================================== *)
(** ** fp-device.c: data *)
(* ================================================================== *)

(** [FpiDeviceAction], the kind of the operation a device is running. *)
Inductive FpiDeviceAction :=
| FPI_DEVICE_ACTION_NONE
| FPI_DEVICE_ACTION_PROBE
| FPI_DEVICE_ACTION_OPEN
| FPI_DEVICE_ACTION_CLOSE
| FPI_DEVICE_ACTION_ENROLL
| FPI_DEVICE_ACTION_VERIFY
| FPI_DEVICE_ACTION_IDENTIFY
| FPI_DEVICE_ACTION_CAPTURE
| FPI_DEVICE_ACTION_LIST
| FPI_DEVICE_ACTION_DELETE
| FPI_DEVICE_ACTION_CLEAR_STORAGE.

(** [FpDeviceError], the error codes of the device error domain. *)
Inductive FpDeviceError :=
| FP_DEVICE_ERROR_GENERAL
| FP_DEVICE_ERROR_NOT_SUPPORTED
| FP_DEVICE_ERROR_NOT_OPEN
| FP_DEVICE_ERROR_ALREADY_OPEN
| FP_DEVICE_ERROR_BUSY
| FP_DEVICE_ERROR_PROTO
| FP_DEVICE_ERROR_DATA_INVALID
| FP_DEVICE_ERROR_DATA_NOT_FOUND
| FP_DEVICE_ERROR_DATA_FULL
| FP_DEVICE_ERROR_DATA_DUPLICATE
| FP_DEVICE_ERROR_REMOVED
| FP_DEVICE_ERROR_TOO_HOT.

(** A [GError] as a task can carry it here: the cancellation error of
    [g_task_return_error_if_cancelled], an error of the device domain
    ([fpi_device_error_new], [fpi_device_error_new_msg]), or the error that
    [g_usb_device_open] reported. *)
Inductive GError :=
| G_IO_ERROR_CANCELLED
| fpi_device_error_new (e : FpDeviceError)
| g_usb_device_error (code : Z).

Inductive FpTemperature :=
| FP_TEMPERATURE_COLD
| FP_TEMPERATURE_WARM
| FP_TEMPERATURE_HOT.

Inductive FpDeviceType :=
| FP_DEVICE_TYPE_VIRTUAL
| FP_DEVICE_TYPE_UDEV
| FP_DEVICE_TYPE_USB.

Inductive FpiPrintType :=
| FPI_PRINT_UNDEFINED
| FPI_PRINT_RAW
| FPI_PRINT_NBIS.

(** Modelled from the spec: the feature bitmask of fp-device.h, which is not
    under src/: one bit per capability of a driver. *)
Definition FpDeviceFeature := Z.
Definition FP_DEVICE_FEATURE_NONE : FpDeviceFeature := 0.
Definition FP_DEVICE_FEATURE_CAPTURE : FpDeviceFeature := Z.shiftl 1 0.
Definition FP_DEVICE_FEATURE_IDENTIFY : FpDeviceFeature := Z.shiftl 1 1.
Definition FP_DEVICE_FEATURE_VERIFY : FpDeviceFeature := Z.shiftl 1 2.
Definition FP_DEVICE_FEATURE_STORAGE : FpDeviceFeature := Z.shiftl 1 3.
Definition FP_DEVICE_FEATURE_STORAGE_LIST : FpDeviceFeature := Z.shiftl 1 4.
Definition FP_DEVICE_FEATURE_STORAGE_DELETE : FpDeviceFeature := Z.shiftl 1 5.
Definition FP_DEVICE_FEATURE_STORAGE_CLEAR : FpDeviceFeature := Z.shiftl 1 6.
Definition FP_DEVICE_FEATURE_DUPLICATES_CHECK : FpDeviceFeature := Z.shiftl 1 7.
Definition FP_DEVICE_FEATURE_ALWAYS_ON : FpDeviceFeature := Z.shiftl 1 8.
Definition FP_DEVICE_FEATURE_UPDATE_PRINT : FpDeviceFeature := Z.shiftl 1 9.

(** Modelled from the spec: the finger-presence flags of fp-device.h, which
    is not under src/; "none" is the empty set of flags. *)
Definition FpFingerStatusFlags := Z.
Definition FP_FINGER_STATUS_NONE : FpFingerStatusFlags := 0.
Definition FP_FINGER_STATUS_NEEDED : FpFingerStatusFlags := Z.shiftl 1 0.
Definition FP_FINGER_STATUS_PRESENT : FpFingerStatusFlags := Z.shiftl 1 1.

(** A [GCancellable] as the dispatcher sees it: whether it has been
    cancelled. *)
Record GCancellable := mkCancellable { cancelled : bool }.

Definition g_cancellable_new : GCancellable := mkCancellable false.

(** An [FpPrint]: its compatibility tag (driver id and device id) and the
    kind of data it holds; the data itself is opaque to the dispatcher. *)
Record FpPrint := mkPrint {
  print_driver : string;
  print_device_id : string;
  fpi_type : FpiPrintType
}.

(** [FpEnrollData] and [FpMatchData], without the caller's callbacks and
    their user data, which the dispatcher only stores. *)
Record FpEnrollData := mkEnrollData { enroll_print : FpPrint }.

Record FpMatchData := mkMatchData {
  enrolled_print : option FpPrint;
  gallery : option (list FpPrint)
}.

(** What [g_task_set_task_data] attached to a task. *)
Inductive TaskData :=
| NoTaskData
| EnrollTaskData (d : FpEnrollData)
| MatchTaskData (d : FpMatchData)
| PrintTaskData (p : FpPrint).

(** A [GTask]: the cancellable it was created with ([None] for NULL) and its
    task data. *)
Record GTask := mkTask {
  task_cancellable : option GCancellable;
  task_data : TaskData
}.

Definition g_task_new (cancellable : option GCancellable) : GTask :=
  mkTask cancellable NoTaskData.

(** [FpDeviceClass]: the driver.  An entry point the dispatcher tests
    before it calls it is a boolean, [true] when the pointer is not NULL;
    [open], [close], [enroll] and [clear_storage] are called without a
    test and have no member here. *)
Record FpDeviceClass := mkClass {
  cls_id : string;
  cls_verify : bool;
  cls_identify : bool;
  cls_capture : bool;
  cls_list : bool;
  cls_delete : bool;
  cls_cancel : bool
}.

(** [FpDevicePrivate], the members the dispatcher reads or writes.
    A pointer to a source or a handler id is a boolean, [true] when it is
    set; [critical_section] is an integer tested against zero;
    [temp_current_ratio], a [double], is left out. *)
Record FpDevicePrivate := mkPriv {
  dev_type : FpDeviceType;
  features : FpDeviceFeature;
  device_id : string;
  is_open : bool;
  is_removed : bool;
  is_suspended : bool;
  current_action : FpiDeviceAction;
  current_task : option GTask;
  suspend_resume_task : option GTask;
  current_cancellable : option GCancellable;
  current_cancellable_id : bool;
  current_task_cancellable_id : bool;
  current_idle_cancel_source : bool;
  critical_section : Z;
  cancel_queued : bool;
  wait_for_finger : bool;
  finger_status : FpFingerStatusFlags;
  temp_current : FpTemperature;
  temp_last_active : bool;
  temp_hot_seconds : Z;
  temp_cold_seconds : Z;
  temp_last_update : Z
}.

(** Assignment to one member. *)
Definition set_is_open (v : bool) (s : FpDevicePrivate) : FpDevicePrivate :=
  {| dev_type := dev_type s; features := features s; device_id := device_id s;
     is_open := v; is_removed := is_removed s; is_suspended := is_suspended s;
     current_action := current_action s; current_task := current_task s;
     suspend_resume_task := suspend_resume_task s;
     current_cancellable := current_cancellable s;
     current_cancellable_id := current_cancellable_id s;
     current_task_cancellable_id := current_task_cancellable_id s;
     current_idle_cancel_source := current_idle_cancel_source s;
     critical_section := critical_section s; cancel_queued := cancel_queued s;
     wait_for_finger := wait_for_finger s; finger_status := finger_status s;
     temp_current := temp_current s; temp_last_active := temp_last_active s;
     temp_hot_seconds := temp_hot_seconds s;
     temp_cold_seconds := temp_cold_seconds s;
     temp_last_update := temp_last_update s |}.

Definition set_is_removed (v : bool) (s : FpDevicePrivate) : FpDevicePrivate :=
  {| dev_type := dev_type s; features := features s; device_id := device_id s;
     is_open := is_open s; is_removed := v; is_suspended := is_suspended s;
     current_action := current_action s; current_task := current_task s;
     suspend_resume_task := suspend_resume_task s;
     current_cancellable := current_cancellable s;
     current_cancellable_id := current_cancellable_id s;
     current_task_cancellable_id := current_task_cancellable_id s;
     current_idle_cancel_source := current_idle_cancel_source s;
     critical_section := critical_section s; cancel_queued := cancel_queued s;
     wait_for_finger := wait_for_finger s; finger_status := finger_status s;
     temp_current := temp_current s; temp_last_active := temp_last_active s;
     temp_hot_seconds := temp_hot_seconds s;
     temp_cold_seconds := temp_cold_seconds s;
     temp_last_update := temp_last_update s |}.

Definition set_is_suspended (v : bool) (s : FpDevicePrivate) : FpDevicePrivate :=
  {| dev_type := dev_type s; features := features s; device_id := device_id s;
     is_open := is_open s; is_removed := is_removed s; is_suspended := v;
     current_action := current_action s; current_task := current_task s;
     suspend_resume_task := suspend_resume_task s;
     current_cancellable := current_cancellable s;
     current_cancellable_id := current_cancellable_id s;
     current_task_cancellable_id := current_task_cancellable_id s;
     current_idle_cancel_source := current_idle_cancel_source s;
     critical_section := critical_section s; cancel_queued := cancel_queued s;
     wait_for_finger := wait_for_finger s; finger_status := finger_status s;
     temp_current := temp_current s; temp_last_active := temp_last_active s;
     temp_hot_seconds := temp_hot_seconds s;
     temp_cold_seconds := temp_cold_seconds s;
     temp_last_update := temp_last_update s |}.

Definition set_critical_section (v : Z) (s : FpDevicePrivate) : FpDevicePrivate :=
  {| dev_type := dev_type s; features := features s; device_id := device_id s;
     is_open := is_open s; is_removed := is_removed s;
     is_suspended := is_suspended s; current_action := current_action s;
     current_task := current_task s;
     suspend_resume_task := suspend_resume_task s;
     current_cancellable := current_cancellable s;
     current_cancellable_id := current_cancellable_id s;
     current_task_cancellable_id := current_task_cancellable_id s;
     current_idle_cancel_source := current_idle_cancel_source s;
     critical_section := v; cancel_queued := cancel_queued s;
     wait_for_finger := wait_for_finger s; finger_status := finger_status s;
     temp_current := temp_current s; temp_last_active := temp_last_active s;
     temp_hot_seconds := temp_hot_seconds s;
     temp_cold_seconds := temp_cold_seconds s;
     temp_last_update := temp_last_update s |}.

Definition set_current_action (v : FpiDeviceAction) (s : FpDevicePrivate) : FpDevicePrivate :=
  {| dev_type := dev_type s; features := features s; device_id := device_id s;
     is_open := is_open s; is_removed := is_removed s;
     is_suspended := is_suspended s; current_action := v;
     current_task := current_task s;
     suspend_resume_task := suspend_resume_task s;
     current_cancellable := current_cancellable s;
     current_cancellable_id := current_cancellable_id s;
     current_task_cancellable_id := current_task_cancellable_id s;
     current_idle_cancel_source := current_idle_cancel_source s;
     critical_section := critical_section s; cancel_queued := cancel_queued s;
     wait_for_finger := wait_for_finger s; finger_status := finger_status s;
     temp_current := temp_current s; temp_last_active := temp_last_active s;
     temp_hot_seconds := temp_hot_seconds s;
     temp_cold_seconds := temp_cold_seconds s;
     temp_last_update := temp_last_update s |}.

Definition set_current_task (v : option GTask) (s : FpDevicePrivate) : FpDevicePrivate :=
  {| dev_type := dev_type s; features := features s; device_id := device_id s;
     is_open := is_open s; is_removed := is_removed s;
     is_suspended := is_suspended s; current_action := current_action s;
     current_task := v; suspend_resume_task := suspend_resume_task s;
     current_cancellable := current_cancellable s;
     current_cancellable_id := current_cancellable_id s;
     current_task_cancellable_id := current_task_cancellable_id s;
     current_idle_cancel_source := current_idle_cancel_source s;
     critical_section := critical_section s; cancel_queued := cancel_queued s;
     wait_for_finger := wait_for_finger s; finger_status := finger_status s;
     temp_current := temp_current s; temp_last_active := temp_last_active s;
     temp_hot_seconds := temp_hot_seconds s;
     temp_cold_seconds := temp_cold_seconds s;
     temp_last_update := temp_last_update s |}.

Definition set_suspend_resume_task (v : option GTask) (s : FpDevicePrivate) : FpDevicePrivate :=
  {| dev_type := dev_type s; features := features s; device_id := device_id s;
     is_open := is_open s; is_removed := is_removed s;
     is_suspended := is_suspended s; current_action := current_action s;
     current_task := current_task s; suspend_resume_task := v;
     current_cancellable := current_cancellable s;
     current_cancellable_id := current_cancellable_id s;
     current_task_cancellable_id := current_task_cancellable_id s;
     current_idle_cancel_source := current_idle_cancel_source s;
     critical_section := critical_section s; cancel_queued := cancel_queued s;
     wait_for_finger := wait_for_finger s; finger_status := finger_status s;
     temp_current := temp_current s; temp_last_active := temp_last_active s;
     temp_hot_seconds := temp_hot_seconds s;
     temp_cold_seconds := temp_cold_seconds s;
     temp_last_update := temp_last_update s |}.

Definition set_current_cancellable (v : option GCancellable) (s : FpDevicePrivate) : FpDevicePrivate :=
  {| dev_type := dev_type s; features := features s; device_id := device_id s;
     is_open := is_open s; is_removed := is_removed s;
     is_suspended := is_suspended s; current_action := current_action s;
     current_task := current_task s;
     suspend_resume_task := suspend_resume_task s; current_cancellable := v;
     current_cancellable_id := current_cancellable_id s;
     current_task_cancellable_id := current_task_cancellable_id s;
     current_idle_cancel_source := current_idle_cancel_source s;
     critical_section := critical_section s; cancel_queued := cancel_queued s;
     wait_for_finger := wait_for_finger s; finger_status := finger_status s;
     temp_current := temp_current s; temp_last_active := temp_last_active s;
     temp_hot_seconds := temp_hot_seconds s;
     temp_cold_seconds := temp_cold_seconds s;
     temp_last_update := temp_last_update s |}.

Definition set_current_cancellable_id (v : bool) (s : FpDevicePrivate) : FpDevicePrivate :=
  {| dev_type := dev_type s; features := features s; device_id := device_id s;
     is_open := is_open s; is_removed := is_removed s;
     is_suspended := is_suspended s; current_action := current_action s;
     current_task := current_task s;
     suspend_resume_task := suspend_resume_task s;
     current_cancellable := current_cancellable s;
     current_cancellable_id := v;
     current_task_cancellable_id := current_task_cancellable_id s;
     current_idle_cancel_source := current_idle_cancel_source s;
     critical_section := critical_section s; cancel_queued := cancel_queued s;
     wait_for_finger := wait_for_finger s; finger_status := finger_status s;
     temp_current := temp_current s; temp_last_active := temp_last_active s;
     temp_hot_seconds := temp_hot_seconds s;
     temp_cold_seconds := temp_cold_seconds s;
     temp_last_update := temp_last_update s |}.

Definition set_current_task_cancellable_id (v : bool) (s : FpDevicePrivate) : FpDevicePrivate :=
  {| dev_type := dev_type s; features := features s; device_id := device_id s;
     is_open := is_open s; is_removed := is_removed s;
     is_suspended := is_suspended s; current_action := current_action s;
     current_task := current_task s;
     suspend_resume_task := suspend_resume_task s;
     current_cancellable := current_cancellable s;
     current_cancellable_id := current_cancellable_id s;
     current_task_cancellable_id := v;
     current_idle_cancel_source := current_idle_cancel_source s;
     critical_section := critical_section s; cancel_queued := cancel_queued s;
     wait_for_finger := wait_for_finger s; finger_status := finger_status s;
     temp_current := temp_current s; temp_last_active := temp_last_active s;
     temp_hot_seconds := temp_hot_seconds s;
     temp_cold_seconds := temp_cold_seconds s;
     temp_last_update := temp_last_update s |}.

Definition set_current_idle_cancel_source (v : bool) (s : FpDevicePrivate) : FpDevicePrivate :=
  {| dev_type := dev_type s; features := features s; device_id := device_id s;
     is_open := is_open s; is_removed := is_removed s;
     is_suspended := is_suspended s; current_action := current_action s;
     current_task := current_task s;
     suspend_resume_task := suspend_resume_task s;
     current_cancellable := current_cancellable s;
     current_cancellable_id := current_cancellable_id s;
     current_task_cancellable_id := current_task_cancellable_id s;
     current_idle_cancel_source := v; critical_section := critical_section s;
     cancel_queued := cancel_queued s; wait_for_finger := wait_for_finger s;
     finger_status := finger_status s; temp_current := temp_current s;
     temp_last_active := temp_last_active s;
     temp_hot_seconds := temp_hot_seconds s;
     temp_cold_seconds := temp_cold_seconds s;
     temp_last_update := temp_last_update s |}.

Definition set_cancel_queued (v : bool) (s : FpDevicePrivate) : FpDevicePrivate :=
  {| dev_type := dev_type s; features := features s; device_id := device_id s;
     is_open := is_open s; is_removed := is_removed s;
     is_suspended := is_suspended s; current_action := current_action s;
     current_task := current_task s;
     suspend_resume_task := suspend_resume_task s;
     current_cancellable := current_cancellable s;
     current_cancellable_id := current_cancellable_id s;
     current_task_cancellable_id := current_task_cancellable_id s;
     current_idle_cancel_source := current_idle_cancel_source s;
     critical_section := critical_section s; cancel_queued := v;
     wait_for_finger := wait_for_finger s; finger_status := finger_status s;
     temp_current := temp_current s; temp_last_active := temp_last_active s;
     temp_hot_seconds := temp_hot_seconds s;
     temp_cold_seconds := temp_cold_seconds s;
     temp_last_update := temp_last_update s |}.

Definition set_wait_for_finger (v : bool) (s : FpDevicePrivate) : FpDevicePrivate :=
  {| dev_type := dev_type s; features := features s; device_id := device_id s;
     is_open := is_open s; is_removed := is_removed s;
     is_suspended := is_suspended s; current_action := current_action s;
     current_task := current_task s;
     suspend_resume_task := suspend_resume_task s;
     current_cancellable := current_cancellable s;
     current_cancellable_id := current_cancellable_id s;
     current_task_cancellable_id := current_task_cancellable_id s;
     current_idle_cancel_source := current_idle_cancel_source s;
     critical_section := critical_section s; cancel_queued := cancel_queued s;
     wait_for_finger := v; finger_status := finger_status s;
     temp_current := temp_current s; temp_last_active := temp_last_active s;
     temp_hot_seconds := temp_hot_seconds s;
     temp_cold_seconds := temp_cold_seconds s;
     temp_last_update := temp_last_update s |}.

Definition set_finger_status (v : FpFingerStatusFlags) (s : FpDevicePrivate) : FpDevicePrivate :=
  {| dev_type := dev_type s; features := features s; device_id := device_id s;
     is_open := is_open s; is_removed := is_removed s;
     is_suspended := is_suspended s; current_action := current_action s;
     current_task := current_task s;
     suspend_resume_task := suspend_resume_task s;
     current_cancellable := current_cancellable s;
     current_cancellable_id := current_cancellable_id s;
     current_task_cancellable_id := current_task_cancellable_id s;
     current_idle_cancel_source := current_idle_cancel_source s;
     critical_section := critical_section s; cancel_queued := cancel_queued s;
     wait_for_finger := wait_for_finger s; finger_status := v;
     temp_current := temp_current s; temp_last_active := temp_last_active s;
     temp_hot_seconds := temp_hot_seconds s;
     temp_cold_seconds := temp_cold_seconds s;
     temp_last_update := temp_last_update s |}.

Definition set_temp_current (v : FpTemperature) (s : FpDevicePrivate) : FpDevicePrivate :=
  {| dev_type := dev_type s; features := features s; device_id := device_id s;
     is_open := is_open s; is_removed := is_removed s;
     is_suspended := is_suspended s; current_action := current_action s;
     current_task := current_task s;
     suspend_resume_task := suspend_resume_task s;
     current_cancellable := current_cancellable s;
     current_cancellable_id := current_cancellable_id s;
     current_task_cancellable_id := current_task_cancellable_id s;
     current_idle_cancel_source := current_idle_cancel_source s;
     critical_section := critical_section s; cancel_queued := cancel_queued s;
     wait_for_finger := wait_for_finger s; finger_status := finger_status s;
     temp_current := v; temp_last_active := temp_last_active s;
     temp_hot_seconds := temp_hot_seconds s;
     temp_cold_seconds := temp_cold_seconds s;
     temp_last_update := temp_last_update s |}.

Definition set_temp_last_active (v : bool) (s : FpDevicePrivate) : FpDevicePrivate :=
  {| dev_type := dev_type s; features := features s; device_id := device_id s;
     is_open := is_open s; is_removed := is_removed s;
     is_suspended := is_suspended s; current_action := current_action s;
     current_task := current_task s;
     suspend_resume_task := suspend_resume_task s;
     current_cancellable := current_cancellable s;
     current_cancellable_id := current_cancellable_id s;
     current_task_cancellable_id := current_task_cancellable_id s;
     current_idle_cancel_source := current_idle_cancel_source s;
     critical_section := critical_section s; cancel_queued := cancel_queued s;
     wait_for_finger := wait_for_finger s; finger_status := finger_status s;
     temp_current := temp_current s; temp_last_active := v;
     temp_hot_seconds := temp_hot_seconds s;
     temp_cold_seconds := temp_cold_seconds s;
     temp_last_update := temp_last_update s |}.

Definition set_temp_hot_seconds (v : Z) (s : FpDevicePrivate) : FpDevicePrivate :=
  {| dev_type := dev_type s; features := features s; device_id := device_id s;
     is_open := is_open s; is_removed := is_removed s;
     is_suspended := is_suspended s; current_action := current_action s;
     current_task := current_task s;
     suspend_resume_task := suspend_resume_task s;
     current_cancellable := current_cancellable s;
     current_cancellable_id := current_cancellable_id s;
     current_task_cancellable_id := current_task_cancellable_id s;
     current_idle_cancel_source := current_idle_cancel_source s;
     critical_section := critical_section s; cancel_queued := cancel_queued s;
     wait_for_finger := wait_for_finger s; finger_status := finger_status s;
     temp_current := temp_current s; temp_last_active := temp_last_active s;
     temp_hot_seconds := v; temp_cold_seconds := temp_cold_seconds s;
     temp_last_update := temp_last_update s |}.

Definition set_temp_cold_seconds (v : Z) (s : FpDevicePrivate) : FpDevicePrivate :=
  {| dev_type := dev_type s; features := features s; device_id := device_id s;
     is_open := is_open s; is_removed := is_removed s;
     is_suspended := is_suspended s; current_action := current_action s;
     current_task := current_task s;
     suspend_resume_task := suspend_resume_task s;
     current_cancellable := current_cancellable s;
     current_cancellable_id := current_cancellable_id s;
     current_task_cancellable_id := current_task_cancellable_id s;
     current_idle_cancel_source := current_idle_cancel_source s;
     critical_section := critical_section s; cancel_queued := cancel_queued s;
     wait_for_finger := wait_for_finger s; finger_status := finger_status s;
     temp_current := temp_current s; temp_last_active := temp_last_active s;
     temp_hot_seconds := temp_hot_seconds s; temp_cold_seconds := v;
     temp_last_update := temp_last_update s |}.

Definition set_temp_last_update (v : Z) (s : FpDevicePrivate) : FpDevicePrivate :=
  {| dev_type := dev_type s; features := features s; device_id := device_id s;
     is_open := is_open s; is_removed := is_removed s;
     is_suspended := is_suspended s; current_action := current_action s;
     current_task := current_task s;
     suspend_resume_task := suspend_resume_task s;
     current_cancellable := current_cancellable s;
     current_cancellable_id := current_cancellable_id s;
     current_task_cancellable_id := current_task_cancellable_id s;
     current_idle_cancel_source := current_idle_cancel_source s;
     critical_section := critical_section s; cancel_queued := cancel_queued s;
     wait_for_finger := wait_for_finger s; finger_status := finger_status s;
     temp_current := temp_current s; temp_last_active := temp_last_active s;
     temp_hot_seconds := temp_hot_seconds s;
     temp_cold_seconds := temp_cold_seconds s; temp_last_update := v |}.

(** The calls that leave fp-device.c, as the trace records them. *)
Inductive DriverEntry :=
| entry_open | entry_close | entry_enroll | entry_verify | entry_identify
| entry_capture | entry_list | entry_delete | entry_clear_storage
| entry_cancel.

Inductive Event :=
| TaskReturnError (e : GError)          (* g_task_return_error, new task *)
| TaskReturnBoolean (b : bool)          (* g_task_return_boolean, new task *)
| DriverCall (e : DriverEntry)          (* cls->e (device) *)
| UpdateTemp (is_active : bool)         (* fpi_device_update_temp *)
| ReportFingerStatus (st : FpFingerStatusFlags)
| UsbDeviceOpen                         (* g_usb_device_open *)
| FpiDeviceSuspend                      (* fpi_device_suspend *)
| FpiDeviceResume.                      (* fpi_device_resume *)

(* ================================================================== *)
(** ** The monad the entry points are written in *)
(* ================================================================== *)

(** How a piece of code ends: it falls through with a value, it executes
    [return;], or a [g_assert] fails. *)
Inductive Flow (A : Type) : Type :=
| Next (a : A)
| Returned
| Aborted.
Arguments Next {A} a.
Arguments Returned {A}.
Arguments Aborted {A}.

Definition Exec (A : Type) : Type :=
  FpDevicePrivate -> Flow A * FpDevicePrivate * list Event.

Definition ret {A} (a : A) : Exec A := fun s => (Next a, s, []).

Definition bind {A B} (m : Exec A) (k : A -> Exec B) : Exec B :=
  fun s =>
    match m s with
    | (Next a, s1, l1) =>
        match k a s1 with
        | (f, s2, l2) => (f, s2, l1 ++ l2)
        end
    | (Returned, s1, l1) => (Returned, s1, l1)
    | (Aborted, s1, l1) => (Aborted, s1, l1)
    end.

Declare Scope exec_scope.
Delimit Scope exec_scope with exec.
Notation "x <- m ;; k" := (bind m (fun x => k))
  (at level 61, m at next level, right associativity) : exec_scope.
Notation "m ;; k" := (bind m (fun _ => k))
  (at level 61, right associativity) : exec_scope.
Local Open Scope exec_scope.

Definition get_priv : Exec FpDevicePrivate := fun s => (Next s, s, []).
Definition modify (f : FpDevicePrivate -> FpDevicePrivate) : Exec unit :=
  fun s => (Next tt, f s, []).
Definition emit (e : Event) : Exec unit := fun s => (Next tt, s, [e]).
Definition return_ {A} : Exec A := fun s => (Returned, s, []).
Definition g_assert (b : bool) : Exec unit :=
  fun s => if b then (Next tt, s, []) else (Aborted, s, []).
Definition when (b : bool) (m : Exec unit) : Exec unit :=
  if b then m else ret tt.

(** Running an entry point on a device: the device afterwards and the calls
    made, or [None] when an assertion failed. *)
Definition exec (m : Exec unit) (s : FpDevicePrivate)
  : option (FpDevicePrivate * list Event) :=
  match m s with
  | (Aborted, _, _) => None
  | (_, s', l) => Some (s', l)
  end.

Definition is_some {A} (o : option A) : bool :=
  match o with Some _ => true | None => false end.

(* ================================================================== *)
(** ** fp-device.c: the entry points *)
(* ================================================================== *)

Definition is_hot (t : FpTemperature) : bool :=
  match t with FP_TEMPERATURE_HOT => true | _ => false end.

Definition is_action_none (a : FpiDeviceAction) : bool :=
  match a with FPI_DEVICE_ACTION_NONE => true | _ => false end.

Definition is_print_undefined (t : FpiPrintType) : bool :=
  match t with FPI_PRINT_UNDEFINED => true | _ => false end.

(** [priv->features & feature] as a C condition. *)
Definition has_feature_bit (priv : FpDevicePrivate) (feature : FpDeviceFeature)
  : bool :=
  negb (Z.land (features priv) feature =? 0).

Definition fp_device_get_features (priv : FpDevicePrivate) : FpDeviceFeature :=
  features priv.

Definition fp_device_has_feature (priv : FpDevicePrivate)
  (feature : FpDeviceFeature) : bool :=
  if feature =? FP_DEVICE_FEATURE_NONE
  then fp_device_get_features priv =? feature
  else Z.land (fp_device_get_features priv) feature =? feature.

Definition fpi_device_error_new_msg (e : FpDeviceError) (msg : string)
  : GError :=
  fpi_device_error_new e.

Definition g_task_get_cancellable (task : option GTask)
  : option GCancellable :=
  match task with
  | Some t => task_cancellable t
  | None => None
  end.

(** GLib: a NULL cancellable is never cancelled. *)
Definition g_cancellable_is_cancelled (c : option GCancellable) : bool :=
  match c with
  | Some c => cancelled c
  | None => false
  end.

Definition g_task_return_error (task : GTask) (e : GError) : Exec unit :=
  emit (TaskReturnError e).

Definition g_task_return_boolean (task : GTask) (b : bool) : Exec unit :=
  emit (TaskReturnBoolean b).

(** GLib: resolves the task with the cancellation error and answers TRUE
    when the task's cancellable is already cancelled. *)
Definition g_task_return_error_if_cancelled (task : GTask) : Exec bool :=
  if g_cancellable_is_cancelled (task_cancellable task)
  then g_task_return_error task G_IO_ERROR_CANCELLED ;; ret true
  else ret false.

(** [g_task_set_task_data (priv->current_task, data, ...)]. *)
Definition g_task_set_task_data (data : TaskData) : Exec unit :=
  modify (fun s =>
    set_current_task
      (option_map (fun t => mkTask (task_cancellable t) data)
                  (current_task s)) s).

Definition cls_call (e : DriverEntry) : Exec unit := emit (DriverCall e).

(** Modelled from the spec: [fpi_device_report_finger_status] of
    fpi-device.c, which is not under src/: the finger-presence status
    becomes the one reported. *)
Definition fpi_device_report_finger_status (st : FpFingerStatusFlags)
  : Exec unit :=
  emit (ReportFingerStatus st) ;;
  modify (set_finger_status st).

Section Dispatcher.

(** The driver of the device. *)
Variable cls : FpDeviceClass.

(** [fpi_device_update_temp] is in fpi-device.c, which is not under src/:
    what it does to the private structure is a parameter. *)
Variable update_temp : bool -> FpDevicePrivate -> FpDevicePrivate.

Definition fpi_device_update_temp (is_active : bool) : Exec unit :=
  emit (UpdateTemp is_active) ;;
  modify (update_temp is_active).

(** Modelled from the spec: [fp_print_compatible] of fp-print.c, which is
    not under src/: the print's driver id and device id are those of the
    device. *)
Definition fp_print_compatible (print : FpPrint) (priv : FpDevicePrivate)
  : bool :=
  String.eqb (print_driver print) (cls_id cls)
  && String.eqb (print_device_id print) (device_id priv).

(** *** The cancellation bridge *)

Definition fp_device_cancel_in_idle_cb : Exec unit :=
  priv <- get_priv ;;
  g_assert (cls_cancel cls) ;;
  g_assert (negb (is_action_none (current_action priv))) ;;
  modify (set_current_idle_cancel_source false) ;;
  (if negb (critical_section priv =? 0)
   then modify (set_cancel_queued true)
   else cls_call entry_cancel) ;;
  fpi_device_report_finger_status FP_FINGER_STATUS_NONE.

(** The handler of the internal cancellable: queues
    [fp_device_cancel_in_idle_cb] as an idle source. *)
Definition fp_device_cancelled_cb : Exec unit :=
  modify (set_current_idle_cancel_source true).

(** GLib's [g_cancellable_cancel] on [priv->current_cancellable]: nothing
    when it is NULL or already cancelled, else it is marked cancelled and
    its handler, if one is connected, runs. *)
Definition g_cancellable_cancel_current : Exec unit :=
  priv <- get_priv ;;
  match current_cancellable priv with
  | None => ret tt
  | Some c =>
      if cancelled c then ret tt
      else
        modify (set_current_cancellable (Some (mkCancellable true))) ;;
        when (current_cancellable_id priv) fp_device_cancelled_cb
  end.

(** The handler of the task's cancellable. *)
Definition fp_device_task_cancelled_cb : Exec unit :=
  g_cancellable_cancel_current.

(** The next idle turn of the event loop: the queued source, if any, is
    dispatched. *)
Definition idle_turn : Exec unit :=
  priv <- get_priv ;;
  when (current_idle_cancel_source priv) fp_device_cancel_in_idle_cb.

Definition setup_task_cancellable : Exec unit :=
  modify (set_current_cancellable (Some g_cancellable_new)) ;;
  when (cls_cancel cls) (modify (set_current_cancellable_id true)) ;;
  priv <- get_priv ;;
  when (is_some (g_task_get_cancellable (current_task priv)))
       (modify (set_current_task_cancellable_id true)).

(** *** open, close *)

(** [usb] is what [g_usb_device_open] answers: [None] for success, the
    code of its error otherwise. *)
Definition g_usb_device_open (usb : option Z) : Exec (option GError) :=
  emit UsbDeviceOpen ;; ret (option_map g_usb_device_error usb).

Definition fp_device_open (cancellable : option GCancellable)
  (usb : option Z) : Exec unit :=
  let task := g_task_new cancellable in
  c <- g_task_return_error_if_cancelled task ;;
  when c return_ ;;
  priv <- get_priv ;;
  when (is_open priv)
    (g_task_return_error task
       (fpi_device_error_new FP_DEVICE_ERROR_ALREADY_OPEN) ;;
     return_) ;;
  when (is_some (current_task priv) || is_suspended priv)
    (g_task_return_error task (fpi_device_error_new FP_DEVICE_ERROR_BUSY) ;;
     return_) ;;
  match dev_type priv with
  | FP_DEVICE_TYPE_USB =>
      r <- g_usb_device_open usb ;;
      match r with
      | Some error => g_task_return_error task error ;; return_
      | None => ret tt
      end
  | FP_DEVICE_TYPE_VIRTUAL
  | FP_DEVICE_TYPE_UDEV => ret tt
  end ;;
  modify (set_current_action FPI_DEVICE_ACTION_OPEN) ;;
  modify (set_current_task (Some task)) ;;
  setup_task_cancellable ;;
  fpi_device_report_finger_status FP_FINGER_STATUS_NONE ;;
  cls_call entry_open.

Definition fp_device_close (cancellable : option GCancellable)
  : Exec unit :=
  let task := g_task_new cancellable in
  c <- g_task_return_error_if_cancelled task ;;
  when c return_ ;;
  priv <- get_priv ;;
  when (negb (is_open priv))
    (g_task_return_error task
       (fpi_device_error_new FP_DEVICE_ERROR_NOT_OPEN) ;;
     return_) ;;
  when (is_some (current_task priv) || is_suspended priv)
    (g_task_return_error task (fpi_device_error_new FP_DEVICE_ERROR_BUSY) ;;
     return_) ;;
  modify (set_current_action FPI_DEVICE_ACTION_CLOSE) ;;
  modify (set_current_task (Some task)) ;;
  setup_task_cancellable ;;
  cls_call entry_close.

(** *** suspend, resume *)

Definition fp_device_suspend (cancellable : option GCancellable)
  : Exec unit :=
  let task := g_task_new cancellable in
  priv <- get_priv ;;
  when (is_some (suspend_resume_task priv) || is_suspended priv)
    (g_task_return_error task (fpi_device_error_new FP_DEVICE_ERROR_BUSY) ;;
     return_) ;;
  when (is_removed priv)
    (g_task_return_error task
       (fpi_device_error_new FP_DEVICE_ERROR_REMOVED) ;;
     return_) ;;
  modify (set_suspend_resume_task (Some task)) ;;
  emit FpiDeviceSuspend.

Definition fp_device_resume (cancellable : option GCancellable)
  : Exec unit :=
  let task := g_task_new cancellable in
  priv <- get_priv ;;
  when (is_some (suspend_resume_task priv) || negb (is_suspended priv))
    (g_task_return_error task (fpi_device_error_new FP_DEVICE_ERROR_BUSY) ;;
     return_) ;;
  when (is_removed priv)
    (g_task_return_error task
       (fpi_device_error_new FP_DEVICE_ERROR_REMOVED) ;;
     return_) ;;
  modify (set_suspend_resume_task (Some task)) ;;
  emit FpiDeviceResume.

(** *** enroll, verify, identify, capture *)

Definition fp_device_enroll (template_print : option FpPrint)
  (cancellable : option GCancellable) : Exec unit :=
  let task := g_task_new cancellable in
  c <- g_task_return_error_if_cancelled task ;;
  when c return_ ;;
  priv <- get_priv ;;
  when (negb (is_open priv))
    (g_task_return_error task
       (fpi_device_error_new FP_DEVICE_ERROR_NOT_OPEN) ;;
     return_) ;;
  when (is_some (current_task priv) || is_suspended priv)
    (g_task_return_error task (fpi_device_error_new FP_DEVICE_ERROR_BUSY) ;;
     return_) ;;
  match template_print with
  | None =>
      (* !FP_IS_PRINT (template_print) *)
      g_task_return_error task
        (fpi_device_error_new_msg FP_DEVICE_ERROR_DATA_INVALID
           "User did not pass a print template!") ;;
      return_
  | Some print =>
      when (negb (is_print_undefined (fpi_type print)))
        (when (negb (fp_device_has_feature priv
                       FP_DEVICE_FEATURE_UPDATE_PRINT))
           (g_task_return_error task
              (fpi_device_error_new_msg FP_DEVICE_ERROR_DATA_INVALID
                 "A device does not support print updates!") ;;
            return_) ;;
         when (negb (fp_print_compatible print priv))
           (g_task_return_error task
              (fpi_device_error_new_msg FP_DEVICE_ERROR_DATA_INVALID
                 "The print and device must have a matching driver and device id for a fingerprint update to succeed") ;;
            return_)) ;;
      fpi_device_update_temp true ;;
      priv <- get_priv ;;
      when (is_hot (temp_current priv))
        (g_task_return_error task
           (fpi_device_error_new FP_DEVICE_ERROR_TOO_HOT) ;;
         fpi_device_update_temp false ;;
         return_) ;;
      modify (set_current_action FPI_DEVICE_ACTION_ENROLL) ;;
      modify (set_current_task (Some task)) ;;
      setup_task_cancellable ;;
      g_task_set_task_data (EnrollTaskData (mkEnrollData print)) ;;
      cls_call entry_enroll
  end.

Definition fp_device_verify (enrolled_print : FpPrint)
  (cancellable : option GCancellable) : Exec unit :=
  let task := g_task_new cancellable in
  c <- g_task_return_error_if_cancelled task ;;
  when c return_ ;;
  priv <- get_priv ;;
  when (negb (is_open priv))
    (g_task_return_error task
       (fpi_device_error_new FP_DEVICE_ERROR_NOT_OPEN) ;;
     return_) ;;
  when (is_some (current_task priv) || is_suspended priv)
    (g_task_return_error task (fpi_device_error_new FP_DEVICE_ERROR_BUSY) ;;
     return_) ;;
  when (negb (cls_verify cls)
        || negb (has_feature_bit priv FP_DEVICE_FEATURE_VERIFY))
    (g_task_return_error task
       (fpi_device_error_new_msg FP_DEVICE_ERROR_NOT_SUPPORTED
          "Device has no verification support") ;;
     return_) ;;
  fpi_device_update_temp true ;;
  priv <- get_priv ;;
  when (is_hot (temp_current priv))
    (g_task_return_error task
       (fpi_device_error_new FP_DEVICE_ERROR_TOO_HOT) ;;
     fpi_device_update_temp false ;;
     return_) ;;
  modify (set_current_action FPI_DEVICE_ACTION_VERIFY) ;;
  modify (set_current_task (Some task)) ;;
  setup_task_cancellable ;;
  g_task_set_task_data
    (MatchTaskData (mkMatchData (Some enrolled_print) None)) ;;
  cls_call entry_verify.

(** [prints] is [None] for a NULL array. *)
Definition fp_device_identify (prints : option (list FpPrint))
  (cancellable : option GCancellable) : Exec unit :=
  let task := g_task_new cancellable in
  c <- g_task_return_error_if_cancelled task ;;
  when c return_ ;;
  priv <- get_priv ;;
  when (negb (is_open priv))
    (g_task_return_error task
       (fpi_device_error_new FP_DEVICE_ERROR_NOT_OPEN) ;;
     return_) ;;
  when (is_some (current_task priv) || is_suspended priv)
    (g_task_return_error task (fpi_device_error_new FP_DEVICE_ERROR_BUSY) ;;
     return_) ;;
  when (negb (cls_identify cls)
        || negb (has_feature_bit priv FP_DEVICE_FEATURE_IDENTIFY))
    (g_task_return_error task
       (fpi_device_error_new_msg FP_DEVICE_ERROR_NOT_SUPPORTED
          "Device has not identification support") ;;
     return_) ;;
  match prints with
  | None =>
      g_task_return_error task
        (fpi_device_error_new_msg FP_DEVICE_ERROR_DATA_INVALID
           "Invalid gallery array") ;;
      return_
  | Some prints =>
      fpi_device_update_temp true ;;
      priv <- get_priv ;;
      when (is_hot (temp_current priv))
        (g_task_return_error task
           (fpi_device_error_new FP_DEVICE_ERROR_TOO_HOT) ;;
         fpi_device_update_temp false ;;
         return_) ;;
      modify (set_current_action FPI_DEVICE_ACTION_IDENTIFY) ;;
      modify (set_current_task (Some task)) ;;
      setup_task_cancellable ;;
      g_task_set_task_data
        (MatchTaskData (mkMatchData None (Some prints))) ;;
      cls_call entry_identify
  end.

Definition fp_device_capture (wait : bool)
  (cancellable : option GCancellable) : Exec unit :=
  let task := g_task_new cancellable in
  c <- g_task_return_error_if_cancelled task ;;
  when c return_ ;;
  priv <- get_priv ;;
  when (negb (is_open priv))
    (g_task_return_error task
       (fpi_device_error_new FP_DEVICE_ERROR_NOT_OPEN) ;;
     return_) ;;
  when (is_some (current_task priv) || is_suspended priv)
    (g_task_return_error task (fpi_device_error_new FP_DEVICE_ERROR_BUSY) ;;
     return_) ;;
  when (negb (cls_capture cls)
        || negb (has_feature_bit priv FP_DEVICE_FEATURE_CAPTURE))
    (g_task_return_error task
       (fpi_device_error_new_msg FP_DEVICE_ERROR_NOT_SUPPORTED
          "Device has no verification support") ;;
     return_) ;;
  fpi_device_update_temp true ;;
  priv <- get_priv ;;
  when (is_hot (temp_current priv))
    (g_task_return_error task
       (fpi_device_error_new FP_DEVICE_ERROR_TOO_HOT) ;;
     fpi_device_update_temp false ;;
     return_) ;;
  modify (set_current_action FPI_DEVICE_ACTION_CAPTURE) ;;
  modify (set_current_task (Some task)) ;;
  setup_task_cancellable ;;
  modify (set_wait_for_finger wait) ;;
  cls_call entry_capture.

(** *** delete, list, clear storage *)

Definition fp_device_delete_print (enrolled_print : FpPrint)
  (cancellable : option GCancellable) : Exec unit :=
  let task := g_task_new cancellable in
  c <- g_task_return_error_if_cancelled task ;;
  when c return_ ;;
  priv <- get_priv ;;
  when (negb (is_open priv))
    (g_task_return_error task
       (fpi_device_error_new FP_DEVICE_ERROR_NOT_OPEN) ;;
     return_) ;;
  when (is_some (current_task priv) || is_suspended priv)
    (g_task_return_error task (fpi_device_error_new FP_DEVICE_ERROR_BUSY) ;;
     return_) ;;
  (* Succeed immediately if delete is not implemented. *)
  when (negb (cls_delete cls)
        || negb (has_feature_bit priv FP_DEVICE_FEATURE_STORAGE_DELETE))
    (g_task_return_boolean task true ;;
     return_) ;;
  modify (set_current_action FPI_DEVICE_ACTION_DELETE) ;;
  modify (set_current_task (Some task)) ;;
  setup_task_cancellable ;;
  g_task_set_task_data (PrintTaskData enrolled_print) ;;
  cls_call entry_delete.

Definition fp_device_list_prints (cancellable : option GCancellable)
  : Exec unit :=
  let task := g_task_new cancellable in
  c <- g_task_return_error_if_cancelled task ;;
  when c return_ ;;
  priv <- get_priv ;;
  when (negb (is_open priv))
    (g_task_return_error task
       (fpi_device_error_new FP_DEVICE_ERROR_NOT_OPEN) ;;
     return_) ;;
  when (is_some (current_task priv) || is_suspended priv)
    (g_task_return_error task (fpi_device_error_new FP_DEVICE_ERROR_BUSY) ;;
     return_) ;;
  when (negb (cls_list cls)
        || negb (has_feature_bit priv FP_DEVICE_FEATURE_STORAGE))
    (g_task_return_error task
       (fpi_device_error_new_msg FP_DEVICE_ERROR_NOT_SUPPORTED
          "Device has no storage") ;;
     return_) ;;
  modify (set_current_action FPI_DEVICE_ACTION_LIST) ;;
  modify (set_current_task (Some task)) ;;
  setup_task_cancellable ;;
  cls_call entry_list.

Definition fp_device_clear_storage (cancellable : option GCancellable)
  : Exec unit :=
  let task := g_task_new cancellable in
  c <- g_task_return_error_if_cancelled task ;;
  when c return_ ;;
  priv <- get_priv ;;
  when (negb (is_open priv))
    (g_task_return_error task
       (fpi_device_error_new FP_DEVICE_ERROR_NOT_OPEN) ;;
     return_) ;;
  when (is_some (current_task priv))
    (g_task_return_error task (fpi_device_error_new FP_DEVICE_ERROR_BUSY) ;;
     return_) ;;
  when (negb (has_feature_bit priv FP_DEVICE_FEATURE_STORAGE))
    (g_task_return_error task
       (fpi_device_error_new_msg FP_DEVICE_ERROR_NOT_SUPPORTED
          "Device has no storage.") ;;
     return_) ;;
  when (negb (has_feature_bit priv FP_DEVICE_FEATURE_STORAGE_CLEAR))
    (g_task_return_error task
       (fpi_device_error_new_msg FP_DEVICE_ERROR_NOT_SUPPORTED
          "Device doesn't support clearing storage.") ;;
     return_) ;;
  modify (set_current_action FPI_DEVICE_ACTION_CLEAR_STORAGE) ;;
  modify (set_current_task (Some task)) ;;
  setup_task_cancellable ;;
  cls_call entry_clear_storage ;;
  return_.

(** *** The operations as one type *)

(** A call of one of the nine operations that take a place in
    [priv->current_task], with its arguments. *)
Inductive Operation :=
| op_open (usb : option Z)
| op_close
| op_enroll (template_print : option FpPrint)
| op_verify (enrolled_print : FpPrint)
| op_identify (prints : option (list FpPrint))
| op_capture (wait : bool)
| op_delete (enrolled_print : FpPrint)
| op_list
| op_clear_storage.

Definition start (op : Operation) (cancellable : option GCancellable)
  : Exec unit :=
  match op with
  | op_open usb => fp_device_open cancellable usb
  | op_close => fp_device_close cancellable
  | op_enroll p => fp_device_enroll p cancellable
  | op_verify p => fp_device_verify p cancellable
  | op_identify ps => fp_device_identify ps cancellable
  | op_capture w => fp_device_capture w cancellable
  | op_delete p => fp_device_delete_print p cancellable
  | op_list => fp_device_list_prints cancellable
  | op_clear_storage => fp_device_clear_storage cancellable
  end.

End Dispatcher.

(* ================================================================== *)
(** ** Vocabulary of the statements *)
(* ================================================================== *)

(** Modelled from the spec: the thermal model of fpi-device.c, which is not
    under src/, at an instant: with no time elapsed since the last update the
    estimate and the discrete state stay as they are and the model only
    records whether the sensor is active; a driver that opted out of
    temperature management (negative [temp_hot_seconds]) has no model to
    update. *)
Definition update_temp_instant (is_active : bool) (s : FpDevicePrivate)
  : FpDevicePrivate :=
  if temp_hot_seconds s <? 0 then s else set_temp_last_active is_active s.

(** The error of the openness check of an operation. *)
Definition openness_error (op : Operation) : FpDeviceError :=
  match op with
  | op_open _ => FP_DEVICE_ERROR_ALREADY_OPEN
  | _ => FP_DEVICE_ERROR_NOT_OPEN
  end.

(** The openness check passes: the device is closed for open, open for the
    other operations. *)
Definition openness_ok (op : Operation) (s : FpDevicePrivate) : bool :=
  match op with
  | op_open _ => negb (is_open s)
  | _ => is_open s
  end.

(** The operation is one of enroll, verify, identify and capture, and the
    checks these make between the busy check and the thermal check pass:
    the driver supports the action (entry point and feature bit), and the
    argument is usable (a print template that is fresh or may be updated on
    this device, a gallery that is not NULL). *)
Definition biometric_admissible (cls : FpDeviceClass) (op : Operation)
  (s : FpDevicePrivate) : bool :=
  match op with
  | op_enroll (Some print) =>
      is_print_undefined (fpi_type print)
      || (fp_device_has_feature s FP_DEVICE_FEATURE_UPDATE_PRINT
          && fp_print_compatible cls print s)
  | op_verify _ =>
      cls_verify cls && has_feature_bit s FP_DEVICE_FEATURE_VERIFY
  | op_identify (Some _) =>
      cls_identify cls && has_feature_bit s FP_DEVICE_FEATURE_IDENTIFY
  | op_capture _ =>
      cls_capture cls && has_feature_bit s FP_DEVICE_FEATURE_CAPTURE
  | _ => false
  end.

(** The operation is one of those that answer "busy" on a suspended device
    in the code: all but open (whose openness check differs) and clear
    storage. *)
Definition checks_suspended (op : Operation) : bool :=
  match op with
  | op_open _ | op_clear_storage => false
  | _ => true
  end.

(** The temperature model held in the private structure. *)
Definition thermal_of (s : FpDevicePrivate)
  : FpTemperature * bool * Z * Z * Z :=
  (temp_current s, temp_last_active s, temp_hot_seconds s,
   temp_cold_seconds s, temp_last_update s).

Definition with_thermal (t : FpTemperature * bool * Z * Z * Z)
  (s : FpDevicePrivate) : FpDevicePrivate :=
  match t with
  | (cur, act, hot, cold, upd) =>
      set_temp_current cur
        (set_temp_last_active act
           (set_temp_hot_seconds hot
              (set_temp_cold_seconds cold
                 (set_temp_last_update upd s))))
  end.

(** An entry point that neither reads nor writes the temperature model and
    never answers "too hot". *)
Definition thermal_free (m : Exec unit) : Prop :=
  forall s, exists s' l,
    exec m s = Some (s', l)
    /\ thermal_of s' = thermal_of s
    /\ (forall b, ~ In (UpdateTemp b) l)
    /\ ~ In (TaskReturnError (fpi_device_error_new FP_DEVICE_ERROR_TOO_HOT)) l
    /\ forall t, exec m (with_thermal t s) = Some (with_thermal t s', l).

(** An event that is neither a call to the thermal model nor a "too hot"
    answer. *)
Definition not_thermal (e : Event) : bool :=
  match e with
  | UpdateTemp _ => false
  | TaskReturnError (fpi_device_error_new FP_DEVICE_ERROR_TOO_HOT) => false
  | _ => true
  end.

(** The calls made by an entry point, whatever the device afterwards. *)
Definition calls_of (m : Exec unit) (s : FpDevicePrivate)
  : option (list Event) :=
  option_map snd (exec m s).

(** *** Devices to run the entry points on *)

(** A driver with on-chip storage and no image capture, as mafpmoc is. *)
Definition moc_cls : FpDeviceClass :=
  {| cls_id := "mafpmoc";
     cls_verify := true; cls_identify := true; cls_capture := false;
     cls_list := true; cls_delete := true; cls_cancel := true |}.

(** A driver without on-chip delete. *)
Definition image_cls : FpDeviceClass :=
  {| cls_id := "image";
     cls_verify := true; cls_identify := true; cls_capture := true;
     cls_list := false; cls_delete := false; cls_cancel := true |}.

Definition moc_features : FpDeviceFeature :=
  Z.lor FP_DEVICE_FEATURE_IDENTIFY
    (Z.lor FP_DEVICE_FEATURE_VERIFY
       (Z.lor FP_DEVICE_FEATURE_STORAGE
          (Z.lor FP_DEVICE_FEATURE_STORAGE_LIST
             (Z.lor FP_DEVICE_FEATURE_STORAGE_DELETE
                (Z.lor FP_DEVICE_FEATURE_STORAGE_CLEAR
                   FP_DEVICE_FEATURE_DUPLICATES_CHECK))))).

(** The device as [fp_device_constructed] leaves it: closed, idle, cold. *)
Definition dev_closed : FpDevicePrivate :=
  {| dev_type := FP_DEVICE_TYPE_USB; features := moc_features;
     device_id := "0";
     is_open := false; is_removed := false; is_suspended := false;
     current_action := FPI_DEVICE_ACTION_NONE; current_task := None;
     suspend_resume_task := None; current_cancellable := None;
     current_cancellable_id := false; current_task_cancellable_id := false;
     current_idle_cancel_source := false;
     critical_section := 0; cancel_queued := false;
     wait_for_finger := false; finger_status := FP_FINGER_STATUS_NONE;
     temp_current := FP_TEMPERATURE_COLD; temp_last_active := false;
     temp_hot_seconds := 180; temp_cold_seconds := 540;
     temp_last_update := 0 |}.

Definition dev_open : FpDevicePrivate := set_is_open true dev_closed.

Definition dev_hot : FpDevicePrivate :=
  set_temp_current FP_TEMPERATURE_HOT dev_open.

Definition dev_suspended : FpDevicePrivate := set_is_suspended true dev_open.

Definition dev_removed : FpDevicePrivate := set_is_removed true dev_open.

Definition fresh_print : FpPrint :=
  {| print_driver := "mafpmoc"; print_device_id := "0";
     fpi_type := FPI_PRINT_UNDEFINED |}.

Definition live : option GCancellable := Some (mkCancellable false).
Definition dead : option GCancellable := Some (mkCancellable true).

(** The device after [m] ran on it ([s] itself if an assertion failed). *)
Definition after (m : Exec unit) (s : FpDevicePrivate) : FpDevicePrivate :=
  match exec m s with
  | Some (s', _) => s'
  | None => s
  end.

(** The open device with an enroll in flight. *)
Definition dev_enrolling : FpDevicePrivate :=
  after (fp_device_enroll moc_cls update_temp_instant (Some fresh_print) live)
        dev_open.

(** The same, with a finger on the sensor and the driver inside a critical
    section when the cancellation arrives. *)
Definition dev_enrolling_critical : FpDevicePrivate :=
  after (g_cancellable_cancel_current)
    (set_critical_section 1
       (set_finger_status FP_FINGER_STATUS_PRESENT dev_enrolling)).

Definition busy_error : Event :=
  TaskReturnError (fpi_device_error_new FP_DEVICE_ERROR_BUSY).

(* ================================================================== *)
(** ** fp-device.c: the blocking variants *)
(* ================================================================== *)

(** A call of an entry point from another function of the file: the
    [return;] of the callee ends the callee, not the caller. *)
Definition call (m : Exec unit) : Exec unit :=
  fun s =>
    match m s with
    | (Returned, s', l) => (Next tt, s', l)
    | r => r
    end.

Section Blocking.

Variable cls : FpDeviceClass.
Variable update_temp : bool -> FpDevicePrivate -> FpDevicePrivate.

(** Each blocking variant makes the asynchronous call, with
    [async_result_ready] for callback, and then iterates the main context
    until that callback has stored the task ([while (!task)
    g_main_context_iteration (NULL, TRUE);]); the definitions are the calls
    made before the loop, [blocking_answer] below is what the loop and the
    [_finish] function make of them. *)
Definition fp_device_open_sync (cancellable : option GCancellable)
  (usb : option Z) : Exec unit :=
  call (fp_device_open cls cancellable usb).

Definition fp_device_close_sync (cancellable : option GCancellable)
  : Exec unit :=
  call (fp_device_close cls cancellable).

Definition fp_device_enroll_sync (template_print : option FpPrint)
  (cancellable : option GCancellable) : Exec unit :=
  call (fp_device_enroll cls update_temp template_print cancellable).

Definition fp_device_verify_sync (enrolled_print : FpPrint)
  (cancellable : option GCancellable) : Exec unit :=
  call (fp_device_verify cls update_temp enrolled_print cancellable).

Definition fp_device_identify_sync (prints : option (list FpPrint))
  (cancellable : option GCancellable) : Exec unit :=
  call (fp_device_identify cls update_temp prints cancellable).

Definition fp_device_capture_sync (wait : bool)
  (cancellable : option GCancellable) : Exec unit :=
  call (fp_device_capture cls update_temp wait cancellable).

Definition fp_device_delete_print_sync (enrolled_print : FpPrint)
  (cancellable : option GCancellable) : Exec unit :=
  call (fp_device_delete_print cls enrolled_print cancellable).

(** The cancellable of the caller is not the one handed on: the call is
    [fp_device_list_prints (device, NULL, async_result_ready, &task)]. *)
Definition fp_device_list_prints_sync (cancellable : option GCancellable)
  : Exec unit :=
  call (fp_device_list_prints cls None).

Definition fp_device_clear_storage_sync (cancellable : option GCancellable)
  : Exec unit :=
  call (fp_device_clear_storage cls cancellable).

Definition fp_device_suspend_sync (cancellable : option GCancellable)
  : Exec unit :=
  call (fp_device_suspend cancellable).

Definition fp_device_resume_sync (cancellable : option GCancellable)
  : Exec unit :=
  call (fp_device_resume cancellable).

(** The blocking variant of an operation. *)
Definition start_sync (op : Operation) (cancellable : option GCancellable)
  : Exec unit :=
  match op with
  | op_open usb => fp_device_open_sync cancellable usb
  | op_close => fp_device_close_sync cancellable
  | op_enroll p => fp_device_enroll_sync p cancellable
  | op_verify p => fp_device_verify_sync p cancellable
  | op_identify ps => fp_device_identify_sync ps cancellable
  | op_capture w => fp_device_capture_sync w cancellable
  | op_delete p => fp_device_delete_print_sync p cancellable
  | op_list => fp_device_list_prints_sync cancellable
  | op_clear_storage => fp_device_clear_storage_sync cancellable
  end.

End Blocking.

(** What a resolved task carries to its callback. *)
Inductive TaskResult :=
| task_error (e : GError)
| task_boolean (b : bool).

(** The resolution of the new task among the calls of an entry point. *)
Fixpoint task_result (l : list Event) : option TaskResult :=
  match l with
  | [] => None
  | TaskReturnError e :: _ => Some (task_error e)
  | TaskReturnBoolean b :: _ => Some (task_boolean b)
  | _ :: rest => task_result rest
  end.

(** What the loop of a blocking variant comes to: a task that the entry
    point resolved reaches [async_result_ready] on an iteration of the main
    context and the [_finish] function hands its result to the caller; a
    task the entry point gave to the driver keeps the loop turning until the
    driver completes it, with code that is not in this file. *)
Inductive SyncAnswer :=
| sync_result (r : TaskResult)
| sync_waits_for_driver.

Definition blocking_answer (m : Exec unit) (s : FpDevicePrivate)
  : option SyncAnswer :=
  match exec m s with
  | Some (_, l) =>
      Some match task_result l with
           | Some r => sync_result r
           | None => sync_waits_for_driver
           end
  | None => None
  end.

(* ================================================================== *)
(** ** drivers/mafpmoc/mafpmoc.h: commands, packet marks, answers *)
(* ================================================================== *)

Module MafpmocProtocol.

Import Mafpmoc.

(** A macro or an enumerator with its value. *)
Definition macro (name : string) (v : Z) : string * Z := (name, v).

(** The [MOC_CMD_*] macros, in the order of the header. *)
Definition commands : list (string * Z) :=
  [ macro "MOC_CMD_GET_IMAGE" 0x01; macro "MOC_CMD_GEN_FEATURE" 0x02;
    macro "MOC_CMD_SEARCH" 0x04; macro "MOC_CMD_GEN_TEMPLATE" 0x05;
    macro "MOC_CMD_SAVE_TEMPLATE" 0x06; macro "MOC_CMD_READ_TEMPLATE" 0x07;
    macro "MOC_CMD_DELETE_TEMPLATE" 0x0C; macro "MOC_CMD_EMPTY" 0x0D;
    macro "MOC_CMD_WRITE_NOTEPAD" 0x18; macro "MOC_CMD_READ_NOTEPAD" 0x19;
    macro "MOC_CMD_GET_TEMPLATE_NUM" 0x1D; macro "MOC_CMD_GET_TEMPLATE_TABLE" 0x1F;
    macro "MOC_CMD_CANCEL" 0x30; macro "MOC_CMD_SLEEP" 0x33;
    macro "MOC_CMD_HANDSHAKE" 0x35; macro "MOC_CMD_CALIBRATE" 0x36;
    macro "MOC_CMD_FACTORY_RESET" 0x3B; macro "MOC_CMD_FACTORY_TEST" 0x56;
    macro "MOC_CMD_MATCH_WITHFID" 0x66; macro "MOC_CMD_GET_MAX_ID" 0x6d;
    macro "MOC_CMD_DUPAREA_TEST" 0x6f; macro "MOC_CMD_SAVE_TEMPLATE_INFO" 0x86;
    macro "MOC_CMD_GET_TEMPLATE_INFO" 0x87; macro "MOC_CMD_GET_INIT_STATUS" 0x88 ].

(** [MapfPackMark], the flag byte of a packet. *)
Definition MapfPackMark : list (string * Z) :=
  [ macro "MAPF_PACK_CMD" 0x01; macro "MAPF_PACK_DATA" 0x02;
    macro "MAPF_PACK_ANSWER" 0x07; macro "MAPF_PACK_END" 0x08;
    macro "MAPF_PACK_DATA_ANDSWER" 0x09 ].

(** The value a name stands for in a table of macros or enumerators. *)
Fixpoint value_of (name : string) (table : list (string * Z)) : option Z :=
  match table with
  | [] => None
  | (n, v) :: rest => if String.eqb n name then Some v else value_of name rest
  end.

(** The first name that stands for a value. *)
Fixpoint name_of (v : Z) (table : list (string * Z)) : option string :=
  match table with
  | [] => None
  | (n, w) :: rest => if w =? v then Some n else name_of v rest
  end.

Definition mafp_boot_handshake_t : Struct :=
  [ mkMember "code" char 2; mkMember "state" uint8_t 1;
    mkMember "descrip" char 16; mkMember "version" uint32_t 1 ].

(** Size of a union of packed structures: that of its largest member. *)
Definition sizeof_union (members : list Struct) : Z :=
  fold_right Z.max 0 (map sizeof_packed members).

(** [mafp_cmd_response_t]: the result byte, then the anonymous union of the
    five answers; every member is a packed structure, of alignment 1, so
    that nothing is padded. *)
Definition mafp_cmd_response_union : list Struct :=
  [ mafp_handshake_t; mafp_search_t; mafp_tpl_table_t; mafp_tpl_info_t;
    mafp_boot_handshake_t ].

Definition sizeof_mafp_cmd_response_t : Z :=
  sizeof_ctype uint8_t + sizeof_union mafp_cmd_response_union.

(** The largest value a member of a scalar type can hold. *)
Definition max_of_ctype (t : CType) : Z := 2 ^ (8 * sizeof_ctype t) - 1.

(** The type of the member called [name]. *)
Fixpoint member_type (name : string) (st : Struct) : option CType :=
  match st with
  | [] => None
  | m :: rest =>
      if String.eqb (m_name m) name then Some (m_type m)
      else member_type name rest
  end.

End MafpmocProtocol.

(* ================================================================== *)
(** ** fp-device.c: construction and introspection *)
(* ================================================================== *)

(** The members of [FpDeviceClass] that [fp_device_constructed] copies. *)
Record FpDeviceClassInfo := mkClassInfo {
  info_type : FpDeviceType;
  info_features : FpDeviceFeature;
  info_temp_hot_seconds : Z;
  info_temp_cold_seconds : Z
}.

Section Constructed.

(** [DEFAULT_TEMP_HOT_SECONDS] and [DEFAULT_TEMP_COLD_SECONDS] are macros of
    fp-device-private.h, which is not under src/: they are parameters. *)
Variable DEFAULT_TEMP_HOT_SECONDS : Z.
Variable DEFAULT_TEMP_COLD_SECONDS : Z.

(** The two members [temp_hot_seconds] and [temp_cold_seconds] as
    [fp_device_constructed] sets them; [None] when its assertion on
    [temp_cold_seconds] fails. *)
Definition constructed_temp_seconds (info : FpDeviceClassInfo)
  : option (Z * Z) :=
  if info_temp_hot_seconds info >? 0
  then
    if info_temp_cold_seconds info >? 0
    then Some (info_temp_hot_seconds info, info_temp_cold_seconds info)
    else None
  else if info_temp_hot_seconds info =? 0
  then Some (DEFAULT_TEMP_HOT_SECONDS, DEFAULT_TEMP_COLD_SECONDS)
  else
    (* Temperature management disabled *)
    Some (-1, -1).

(** [fp_device_constructed], on the private structure that GObject hands
    zeroed; [now] is what [g_get_monotonic_time] answers.  [None] when an
    assertion fails. *)
Definition fp_device_constructed (info : FpDeviceClassInfo) (now : Z)
  : option FpDevicePrivate :=
  if info_features info =? FP_DEVICE_FEATURE_NONE then None
  else
    match constructed_temp_seconds info with
    | None => None
    | Some (hot, cold) =>
        Some {| dev_type := info_type info;
                features := info_features info;
                device_id := "0";
                is_open := false; is_removed := false;
                is_suspended := false;
                current_action := FPI_DEVICE_ACTION_NONE;
                current_task := None;
                suspend_resume_task := None;
                current_cancellable := None;
                current_cancellable_id := false;
                current_task_cancellable_id := false;
                current_idle_cancel_source := false;
                critical_section := 0; cancel_queued := false;
                wait_for_finger := false;
                finger_status := FP_FINGER_STATUS_NONE;
                temp_current := FP_TEMPERATURE_COLD;
                temp_last_active := false;
                temp_hot_seconds := hot; temp_cold_seconds := cold;
                temp_last_update := now |}
    end.

End Constructed.

Definition fp_device_supports_identify (cls : FpDeviceClass)
  (priv : FpDevicePrivate) : bool :=
  cls_identify cls
  && negb (negb (has_feature_bit priv FP_DEVICE_FEATURE_IDENTIFY)).

Definition fp_device_supports_capture (cls : FpDeviceClass)
  (priv : FpDevicePrivate) : bool :=
  cls_capture cls
  && negb (negb (has_feature_bit priv FP_DEVICE_FEATURE_CAPTURE)).

Definition fp_device_has_storage (priv : FpDevicePrivate) : bool :=
  negb (negb (has_feature_bit priv FP_DEVICE_FEATURE_STORAGE)).

(* ================================================================== *)
(** ** Vocabulary of the statements on whole runs *)
(* ================================================================== *)

(** The action an operation records, the entry point it calls and the data
    it attaches to its task. *)
Definition action_of (op : Operation) : FpiDeviceAction :=
  match op with
  | op_open _ => FPI_DEVICE_ACTION_OPEN
  | op_close => FPI_DEVICE_ACTION_CLOSE
  | op_enroll _ => FPI_DEVICE_ACTION_ENROLL
  | op_verify _ => FPI_DEVICE_ACTION_VERIFY
  | op_identify _ => FPI_DEVICE_ACTION_IDENTIFY
  | op_capture _ => FPI_DEVICE_ACTION_CAPTURE
  | op_delete _ => FPI_DEVICE_ACTION_DELETE
  | op_list => FPI_DEVICE_ACTION_LIST
  | op_clear_storage => FPI_DEVICE_ACTION_CLEAR_STORAGE
  end.

Definition entry_of (op : Operation) : DriverEntry :=
  match op with
  | op_open _ => entry_open
  | op_close => entry_close
  | op_enroll _ => entry_enroll
  | op_verify _ => entry_verify
  | op_identify _ => entry_identify
  | op_capture _ => entry_capture
  | op_delete _ => entry_delete
  | op_list => entry_list
  | op_clear_storage => entry_clear_storage
  end.

Definition task_data_of (op : Operation) : TaskData :=
  match op with
  | op_enroll (Some print) => EnrollTaskData (mkEnrollData print)
  | op_verify print => MatchTaskData (mkMatchData (Some print) None)
  | op_identify (Some prints) =>
      MatchTaskData (mkMatchData None (Some prints))
  | op_delete print => PrintTaskData print
  | _ => NoTaskData
  end.

Definition is_biometric (op : Operation) : bool :=
  match op with
  | op_enroll _ | op_verify _ | op_identify _ | op_capture _ => true
  | _ => false
  end.

(** The checks an operation makes between the busy check and the thermal
    check pass, and, for open, the USB device opens. *)
Definition admissible (cls : FpDeviceClass) (op : Operation)
  (s : FpDevicePrivate) : bool :=
  match op with
  | op_open usb =>
      match dev_type s, usb with
      | FP_DEVICE_TYPE_USB, Some _ => false
      | _, _ => true
      end
  | op_close => true
  | op_delete _ =>
      cls_delete cls && has_feature_bit s FP_DEVICE_FEATURE_STORAGE_DELETE
  | op_list => cls_list cls && has_feature_bit s FP_DEVICE_FEATURE_STORAGE
  | op_clear_storage =>
      has_feature_bit s FP_DEVICE_FEATURE_STORAGE
      && has_feature_bit s FP_DEVICE_FEATURE_STORAGE_CLEAR
  | _ => biometric_admissible cls op s
  end.

(** The calls an operation makes before the driver's entry point. *)
Definition prelude_of (op : Operation) (s : FpDevicePrivate) : list Event :=
  match op with
  | op_open _ =>
      match dev_type s with
      | FP_DEVICE_TYPE_USB =>
          [UsbDeviceOpen; ReportFingerStatus FP_FINGER_STATUS_NONE]
      | _ => [ReportFingerStatus FP_FINGER_STATUS_NONE]
      end
  | _ => if is_biometric op then [UpdateTemp true] else []
  end.

(** The driver entry points called, the resolutions of the new task and the
    calls to the thermal model in a list of events. *)
Fixpoint driver_calls (l : list Event) : list DriverEntry :=
  match l with
  | [] => []
  | DriverCall e :: rest => e :: driver_calls rest
  | _ :: rest => driver_calls rest
  end.

Fixpoint resolutions (l : list Event) : nat :=
  match l with
  | [] => O
  | TaskReturnError _ :: rest => S (resolutions rest)
  | TaskReturnBoolean _ :: rest => S (resolutions rest)
  | _ :: rest => resolutions rest
  end.

Fixpoint thermal_calls (l : list Event) : list bool :=
  match l with
  | [] => []
  | UpdateTemp b :: rest => b :: thermal_calls rest
  | _ :: rest => thermal_calls rest
  end.

(** The thermal model changes nothing but the temperature members. *)
Definition thermal_only
  (update_temp : bool -> FpDevicePrivate -> FpDevicePrivate) : Prop :=
  forall b s, exists t, update_temp b s = with_thermal t s.

(** The active-operation slot is coherent: an action is recorded exactly
    when a task is pending. *)
Definition slot_coherent (s : FpDevicePrivate) : Prop :=
  is_action_none (current_action s) = negb (is_some (current_task s)).

(** The device is at rest: no task, no handler left connected to the
    internal cancellable, no idle cancellation queued. *)
Definition at_rest (s : FpDevicePrivate) : Prop :=
  current_task s = None
  /\ current_cancellable_id s = false
  /\ current_idle_cancel_source s = false.

(** The caller's cancellable fires, then the event loop takes an idle
    turn. *)
Definition cancel_then_idle (cls : FpDeviceClass) : Exec unit :=
  fp_device_task_cancelled_cb ;; idle_turn cls.

(** The run of [m] on [s] ends and calls a driver entry point. *)
Definition reaches_driver (m : Exec unit) (s : FpDevicePrivate) : bool :=
  match calls_of m s with
  | Some l =>
      match driver_calls l with
      | [] => false
      | _ :: _ => true
      end
  | None => false
  end.

(** Suspend or resume, by a flag. *)
Definition suspend_or_resume (resume : bool) (c : option GCancellable)
  : Exec unit :=
  if resume then fp_device_resume c else fp_device_suspend c.


(** An image device: capture and matching on the host, no storage; built
    by [fp_device_constructed] with the default temperature seconds taken
    as 180 and 540, then open. *)
Definition image_features : FpDeviceFeature :=
  Z.lor FP_DEVICE_FEATURE_CAPTURE
    (Z.lor FP_DEVICE_FEATURE_IDENTIFY FP_DEVICE_FEATURE_VERIFY).

Definition image_info : FpDeviceClassInfo :=
  {| info_type := FP_DEVICE_TYPE_USB; info_features := image_features;
     info_temp_hot_seconds := 0; info_temp_cold_seconds := 0 |}.

Definition dev_image : FpDevicePrivate :=
  match fp_device_constructed 180 540 image_info 0 with
  | Some s => set_is_open true s
  | None => dev_open
  end.

(* ================================================================== *)
(** ** Proof support *)
(* ================================================================== *)

Arguments has_feature_bit : simpl never.
Arguments fp_device_has_feature : simpl never.
Arguments fp_print_compatible : simpl never.
Arguments g_cancellable_is_cancelled : simpl never.

(** Unfolds an entry point down to the state and the events. *)
Ltac exec_unfold :=
  cbv [exec calls_of start after
       fp_device_open fp_device_close fp_device_enroll fp_device_verify
       fp_device_identify fp_device_capture fp_device_delete_print
       fp_device_list_prints fp_device_clear_storage
       fp_device_suspend fp_device_resume
       fp_device_cancel_in_idle_cb fp_device_cancelled_cb
       g_cancellable_cancel_current fp_device_task_cancelled_cb idle_turn
       setup_task_cancellable g_usb_device_open
       fpi_device_update_temp fpi_device_report_finger_status cls_call
       g_task_set_task_data g_task_return_error_if_cancelled
       g_task_return_boolean g_task_return_error g_task_new
       fpi_device_error_new_msg busy_error
       bind ret when return_ emit modify get_priv g_assert
       task_cancellable app].

(** Decides the tests of the code with the hypotheses at hand. *)
Ltac exec_rewrite :=
  repeat (cbn in *;
          match goal with
          | H : ?f ?a = _ |- context [?f ?a] => rewrite H
          | H : ?f ?a ?b = _ |- context [?f ?a ?b] => rewrite H
          end);
  cbn in *.

(** Splits on the tests that are left. *)
Ltac exec_cases :=
  repeat (match goal with
          | |- context [if ?b then _ else _] => destruct b eqn:?
          | |- context [match dev_type ?s with _ => _ end] =>
              destruct (dev_type s) eqn:?
          | |- context [option_map _ ?o] => is_var o; destruct o
          end; exec_rewrite).

Ltac exec_run := intros; exec_unfold; exec_rewrite.

(* ================================================================== *)
(** ** The dispatcher runs to completion *)
(* ================================================================== *)

(** What the examples evaluate to. *)
Example dev_enrolling_state :
  current_action dev_enrolling = FPI_DEVICE_ACTION_ENROLL
  /\ current_task dev_enrolling
     = Some (mkTask live (EnrollTaskData (mkEnrollData fresh_print)))
  /\ is_open dev_enrolling = true
  /\ current_cancellable dev_enrolling = Some (mkCancellable false)
  /\ current_cancellable_id dev_enrolling = true.
Proof. repeat split. Qed.

Example dev_enrolling_critical_state :
  current_idle_cancel_source dev_enrolling_critical = true
  /\ current_cancellable dev_enrolling_critical = Some (mkCancellable true)
  /\ critical_section dev_enrolling_critical = 1
  /\ finger_status dev_enrolling_critical = FP_FINGER_STATUS_PRESENT.
Proof. repeat split. Qed.

(* ================================================================== *)
(** ** Wire constants of mafpmoc.h *)
(* ================================================================== *)

(** C8. The packet header is 9 bytes, the CRC 2 bytes and the USB frame
    buffer 512 bytes, so that [PACKAGE_DATA_SIZE_MAX] is 512 - 9 - 2 = 501;
    the template table has 256 slots, a UID string up to 128 bytes, a serial
    number up to 32 bytes; there are at most 10 enrolled fingers, 3 users and
    16 notepad pages. *)
Theorem mafpmoc_wire_constants :
  Mafpmoc.PACKAGE_HEADER_SIZE = 9
  /\ Mafpmoc.sizeof_packed Mafpmoc.pack_header = Mafpmoc.PACKAGE_HEADER_SIZE
  /\ Mafpmoc.PACKAGE_CRC_SIZE = 2
  /\ Mafpmoc.MAFP_USB_BUFFER_SIZE = 512
  /\ Mafpmoc.PACKAGE_DATA_SIZE_MAX = 512 - 9 - 2
  /\ Mafpmoc.PACKAGE_DATA_SIZE_MAX = 501
  /\ Mafpmoc.PACKAGE_HEADER_SIZE + Mafpmoc.PACKAGE_DATA_SIZE_MAX
     + Mafpmoc.PACKAGE_CRC_SIZE = Mafpmoc.MAFP_USB_BUFFER_SIZE
  /\ Mafpmoc.member_count "list" Mafpmoc.mafp_tpl_table_t = 256
  /\ Mafpmoc.mafp_templates_total_list_len = 256
  /\ Mafpmoc.TEMPLATE_UID_SIZE = 128
  /\ Mafpmoc.member_count "uid" Mafpmoc.mafp_tpl_info_t
     = Mafpmoc.TEMPLATE_UID_SIZE
  /\ Mafpmoc.member_count "uid" Mafpmoc.mafp_template_t
     = Mafpmoc.TEMPLATE_UID_SIZE
  /\ Mafpmoc.DEVICE_SN_SIZE = 32
  /\ Mafpmoc.member_count "sn" Mafpmoc.mafp_template_t
     = Mafpmoc.DEVICE_SN_SIZE
  /\ Mafpmoc.MAX_FINGER_NUM = 10
  /\ Mafpmoc.mafp_templates_priv_list_len = 10
  /\ Mafpmoc.MAX_USER_NUM = 3
  /\ Mafpmoc.MAX_NOTEPAD_PAGE = 16.
Proof. repeat split. Qed.

(* ================================================================== *)
(** ** Cancellation at entry *)
(* ================================================================== *)

(** The asynchronous entry points.  Each of open, close, enroll, verify,
    identify, capture, delete, list and clear storage, called with a
    cancellable that is already cancelled, resolves with the cancellation
    error whatever the device (open or not, busy or not, supported or not,
    hot or not), calls nothing else and leaves the device as it was;
    suspend and resume make the same calls whatever their cancellable,
    cancelled or not. *)
Theorem cancelled_at_entry (cls : FpDeviceClass)
  (update_temp : bool -> FpDevicePrivate -> FpDevicePrivate)
  (op : Operation) (s : FpDevicePrivate) :
  exec (start cls update_temp op dead) s
    = Some (s, [TaskReturnError G_IO_ERROR_CANCELLED])
  /\ (forall c, calls_of (fp_device_suspend c) s
                = calls_of (fp_device_suspend None) s)
  /\ (forall c, calls_of (fp_device_resume c) s
                = calls_of (fp_device_resume None) s)
  /\ calls_of (fp_device_suspend dead) dev_open = Some [FpiDeviceSuspend]
  /\ calls_of (fp_device_resume dead) dev_suspended = Some [FpiDeviceResume].
Proof.
  split; [destruct op; reflexivity|].
  split; [|split; [|split; reflexivity]].
  - intros c. exec_unfold. exec_cases; reflexivity.
  - intros c. exec_unfold. exec_cases; reflexivity.
Qed.

(** There is one cancelled cancellable. *)
Lemma cancelled_is_dead (c : option GCancellable) :
  g_cancellable_is_cancelled c = true -> c = dead.
Proof.
  destruct c as [[[]]|]; cbv [g_cancellable_is_cancelled cancelled];
    intros H; try discriminate H; reflexivity.
Qed.

(** C1, as amended. On a device with an operation pending, a second
    operation resolves at once with a single error, calls no driver entry
    point or helper and leaves the device as it was.  The error is "busy"
    when the cancellable of the call is not already cancelled and the
    openness check passes (a closed device for open, an open one for the
    others); before that come the cancellation error and the error of the
    openness check ("already open" for open, "not open" for the others). *)
Theorem second_operation_while_pending (cls : FpDeviceClass)
  (update_temp : bool -> FpDevicePrivate -> FpDevicePrivate)
  (op : Operation) (c : option GCancellable) (s : FpDevicePrivate) :
  is_some (current_task s) = true ->
  exec (start cls update_temp op c) s
    = Some (s, [TaskReturnError
                  (if g_cancellable_is_cancelled c then G_IO_ERROR_CANCELLED
                   else if openness_ok op s
                        then fpi_device_error_new FP_DEVICE_ERROR_BUSY
                        else fpi_device_error_new (openness_error op))]).
Proof.
  intros Hp. destruct op; exec_unfold; cbv [openness_ok openness_error];
    destruct (g_cancellable_is_cancelled c); cbn; try reflexivity;
    destruct (is_open s); cbn; try reflexivity;
    rewrite Hp; reflexivity.
Qed.

(** The input of C1's witness and counterexample: a second call while the
    enroll of [dev_enrolling] is pending. *)
Lemma second_operation_while_pending_witness :
  is_some (current_task dev_enrolling) = true
  /\ exec (start moc_cls update_temp_instant (op_verify fresh_print) live)
          dev_enrolling
     = Some (dev_enrolling, [busy_error]).
Proof.
  split; [reflexivity|].
  exact (second_operation_while_pending moc_cls update_temp_instant
           (op_verify fresh_print) live dev_enrolling eq_refl).
Defined.

(** C1 as stated fails: with an enroll pending on an open device, a second
    open does not answer "busy" but "already open". *)
Lemma second_open_is_already_open :
  is_some (current_task dev_enrolling) = true
  /\ exec (start moc_cls update_temp_instant (op_open None) live)
          dev_enrolling
     = Some (dev_enrolling,
             [TaskReturnError
                (fpi_device_error_new FP_DEVICE_ERROR_ALREADY_OPEN)])
  /\ exec (start moc_cls update_temp_instant (op_open None) live)
          dev_enrolling
     <> Some (dev_enrolling, [busy_error]).
Proof. repeat split. discriminate. Qed.

(* ================================================================== *)
(** ** Delete on a driver without delete *)
(* ================================================================== *)

(** C9, as amended. On an open, idle device that is not suspended, whose
    driver has no delete entry point or lacks the storage-delete feature
    bit, delete-print called with a cancellable that is not already
    cancelled resolves at once with TRUE, calls no driver code and records
    no active operation: the device is left as it was. *)
Theorem delete_print_not_implemented (cls : FpDeviceClass)
  (enrolled_print : FpPrint) (c : option GCancellable)
  (s : FpDevicePrivate) :
  g_cancellable_is_cancelled c = false ->
  is_open s = true ->
  current_task s = None ->
  is_suspended s = false ->
  cls_delete cls = false
  \/ has_feature_bit s FP_DEVICE_FEATURE_STORAGE_DELETE = false ->
  exec (fp_device_delete_print cls enrolled_print c) s
    = Some (s, [TaskReturnBoolean true]).
Proof.
  intros Hc Ho Ht Hs [Hd | Hf]; exec_run; try reflexivity.
  destruct (cls_delete cls); reflexivity.
Qed.

Lemma delete_print_not_implemented_witness :
  exec (fp_device_delete_print image_cls fresh_print live) dev_open
    = Some (dev_open, [TaskReturnBoolean true]).
Proof.
  apply (delete_print_not_implemented image_cls fresh_print live dev_open);
    try reflexivity.
  left; reflexivity.
Defined.

(** C9 as stated fails: the same call with a cancellable that is already
    cancelled resolves with the cancellation error, not with TRUE. *)
Lemma delete_print_cancelled_first :
  is_open dev_open = true
  /\ current_task dev_open = None
  /\ is_suspended dev_open = false
  /\ cls_delete image_cls = false
  /\ exec (fp_device_delete_print image_cls fresh_print dead) dev_open
     = Some (dev_open, [TaskReturnError G_IO_ERROR_CANCELLED])
  /\ exec (fp_device_delete_print image_cls fresh_print dead) dev_open
     <> Some (dev_open, [TaskReturnBoolean true]).
Proof. repeat split. discriminate. Qed.

(* ================================================================== *)
(** ** Enroll and the openness check *)
(* ================================================================== *)

(** C5, as amended. Called with a cancellable that is not already
    cancelled and a fresh print template, enroll on a device [s1] that is
    not open resolves with "not open", calls nothing else and changes
    nothing; on a device [s2] that is open, idle, not suspended and not hot
    once the thermal model has been updated for the start of the operation,
    the same call records enroll as the active operation, keeps the task
    with the template attached, and calls the driver's enroll entry
    point. *)
Theorem enroll_openness (cls : FpDeviceClass)
  (update_temp : bool -> FpDevicePrivate -> FpDevicePrivate)
  (print : FpPrint) (c : option GCancellable) (s1 s2 : FpDevicePrivate) :
  g_cancellable_is_cancelled c = false ->
  fpi_type print = FPI_PRINT_UNDEFINED ->
  is_open s1 = false ->
  is_open s2 = true ->
  current_task s2 = None ->
  is_suspended s2 = false ->
  is_hot (temp_current (update_temp true s2)) = false ->
  exec (fp_device_enroll cls update_temp (Some print) c) s1
    = Some (s1, [TaskReturnError
                   (fpi_device_error_new FP_DEVICE_ERROR_NOT_OPEN)])
  /\ exists s',
       exec (fp_device_enroll cls update_temp (Some print) c) s2
         = Some (s', [UpdateTemp true; DriverCall entry_enroll])
       /\ current_action s' = FPI_DEVICE_ACTION_ENROLL
       /\ current_task s'
          = Some (mkTask c (EnrollTaskData (mkEnrollData print))).
Proof.
  intros Hc Hp H1 H2 Ht Hs Hh. split.
  - exec_run. reflexivity.
  - exec_run. exec_cases; eexists; repeat split.
Qed.

Lemma enroll_openness_witness :
  exec (fp_device_enroll moc_cls update_temp_instant (Some fresh_print) live)
       dev_closed
    = Some (dev_closed,
            [TaskReturnError (fpi_device_error_new FP_DEVICE_ERROR_NOT_OPEN)])
  /\ exists s',
       exec (fp_device_enroll moc_cls update_temp_instant
               (Some fresh_print) live) dev_open
         = Some (s', [UpdateTemp true; DriverCall entry_enroll])
       /\ current_action s' = FPI_DEVICE_ACTION_ENROLL
       /\ current_task s'
          = Some (mkTask live (EnrollTaskData (mkEnrollData fresh_print))).
Proof.
  apply (enroll_openness moc_cls update_temp_instant fresh_print live
           dev_closed dev_open); reflexivity.
Defined.

(** C5 as stated fails: on a device that is not open, enroll called with a
    cancellable that is already cancelled resolves with the cancellation
    error, not with "not open". *)
Lemma enroll_closed_cancelled_first :
  is_open dev_closed = false
  /\ exec (fp_device_enroll moc_cls update_temp_instant (Some fresh_print)
             dead) dev_closed
     = Some (dev_closed, [TaskReturnError G_IO_ERROR_CANCELLED])
  /\ exec (fp_device_enroll moc_cls update_temp_instant (Some fresh_print)
             dead) dev_closed
     <> Some (dev_closed,
              [TaskReturnError
                 (fpi_device_error_new FP_DEVICE_ERROR_NOT_OPEN)]).
Proof. repeat split. discriminate. Qed.

(* ================================================================== *)
(** ** The thermal gate *)
(* ================================================================== *)

(** C2, as amended. On an open, idle device that is not suspended, each of
    enroll, verify, identify and capture, called with a cancellable that is
    not already cancelled, supported by the driver and given a usable
    argument, resolves with "too hot" when the thermal state is hot once
    the thermal model has been updated for the start of the operation: the
    calls are the update to active, the error, and the update back to
    inactive, in this order; no driver entry point is called and nothing
    but the two updates touches the device. *)
Theorem too_hot_gate (cls : FpDeviceClass)
  (update_temp : bool -> FpDevicePrivate -> FpDevicePrivate)
  (op : Operation) (c : option GCancellable) (s : FpDevicePrivate) :
  g_cancellable_is_cancelled c = false ->
  is_open s = true ->
  current_task s = None ->
  is_suspended s = false ->
  biometric_admissible cls op s = true ->
  temp_current (update_temp true s) = FP_TEMPERATURE_HOT ->
  exec (start cls update_temp op c) s
    = Some (update_temp false (update_temp true s),
            [UpdateTemp true;
             TaskReturnError (fpi_device_error_new FP_DEVICE_ERROR_TOO_HOT);
             UpdateTemp false]).
Proof.
  intros Hc Ho Ht Hs Ha Hh.
  destruct op as [usb| |[print|]|print|[prints|]|wait|print| |];
    cbn [biometric_admissible] in Ha; try discriminate Ha.
  - (* enroll *)
    exec_run.
    destruct (is_print_undefined (fpi_type print)); cbn in *.
    + rewrite Hh. reflexivity.
    + apply andb_prop in Ha. destruct Ha as [Hu Hk].
      rewrite Hu, Hk. cbn. rewrite Hh. reflexivity.
  - (* verify *)
    apply andb_prop in Ha. destruct Ha as [Hv Hf].
    exec_run. reflexivity.
  - (* identify *)
    apply andb_prop in Ha. destruct Ha as [Hv Hf].
    exec_run. reflexivity.
  - (* capture *)
    apply andb_prop in Ha. destruct Ha as [Hv Hf].
    exec_run. reflexivity.
Qed.

Lemma too_hot_gate_witness :
  exec (start moc_cls update_temp_instant (op_verify fresh_print) live)
       dev_hot
    = Some (update_temp_instant false (update_temp_instant true dev_hot),
            [UpdateTemp true;
             TaskReturnError (fpi_device_error_new FP_DEVICE_ERROR_TOO_HOT);
             UpdateTemp false]).
Proof.
  apply (too_hot_gate moc_cls update_temp_instant (op_verify fresh_print)
           live dev_hot); reflexivity.
Defined.

(** With the thermal model of the examples the device ends inactive. *)
Example hot_device_ends_inactive :
  temp_last_active
    (update_temp_instant false (update_temp_instant true dev_hot)) = false
  /\ temp_last_active (update_temp_instant true dev_hot) = true.
Proof. split; reflexivity. Qed.

(** C2 as stated fails: on an open, idle, hot device whose driver has no
    capture, capture resolves with "not supported", not with "too hot". *)
Lemma hot_capture_is_not_supported :
  is_open dev_hot = true
  /\ current_task dev_hot = None
  /\ temp_current dev_hot = FP_TEMPERATURE_HOT
  /\ exec (start moc_cls update_temp_instant (op_capture true) live) dev_hot
     = Some (dev_hot,
             [TaskReturnError
                (fpi_device_error_new FP_DEVICE_ERROR_NOT_SUPPORTED)])
  /\ exec (start moc_cls update_temp_instant (op_capture true) live) dev_hot
     <> Some (update_temp_instant false (update_temp_instant true dev_hot),
              [UpdateTemp true;
               TaskReturnError (fpi_device_error_new FP_DEVICE_ERROR_TOO_HOT);
               UpdateTemp false]).
Proof. repeat split. discriminate. Qed.

(** Reading a member other than the model's in a device whose model was
    replaced. *)
Lemma has_feature_bit_with_thermal t s f :
  has_feature_bit (with_thermal t s) f = has_feature_bit s f.
Proof. destruct t as [[[[cur act] hot] cold] upd]. reflexivity. Qed.

Lemma not_thermal_sound (l : list Event) :
  forallb not_thermal l = true ->
  (forall b, ~ In (UpdateTemp b) l)
  /\ ~ In (TaskReturnError (fpi_device_error_new FP_DEVICE_ERROR_TOO_HOT)) l.
Proof.
  rewrite forallb_forall. intros Hall. split.
  - intros b Hi. specialize (Hall _ Hi). discriminate Hall.
  - intros Hi. specialize (Hall _ Hi). discriminate Hall.
Qed.

(** How [thermal_free] is established: the entry point ends, keeps the
    model, makes no thermal call, and commutes with a change of model. *)
Lemma thermal_free_intro (m : Exec unit) :
  (forall s, exists s' l,
      exec m s = Some (s', l)
      /\ thermal_of s' = thermal_of s
      /\ forallb not_thermal l = true
      /\ forall t, exec m (with_thermal t s) = Some (with_thermal t s', l)) ->
  thermal_free m.
Proof.
  intros H s. destruct (H s) as (s' & l & He & Ht & Hl & Hw).
  exists s', l. destruct (not_thermal_sound l Hl) as [Hu Hh].
  repeat split; assumption.
Qed.

Ltac thermal_free_case :=
  eexists; eexists; split; [reflexivity|];
  split; [reflexivity|];
  split; [reflexivity|];
  let t := fresh "t" in
  intros t; exec_unfold;
  rewrite ?has_feature_bit_with_thermal;
  destruct t as [[[[? ?] ?] ?] ?]; exec_rewrite; reflexivity.

(** C7. Open, close and list never read or write the temperature model and
    never answer "too hot": on every device they run to their end, leave the
    model as it was, make no call to the model and resolve with no "too hot"
    error, and with any other model in the device, hot included, they do
    the same calls and the same changes. *)
Theorem thermal_gate_spares_open_close_list (cls : FpDeviceClass)
  (c : option GCancellable) (usb : option Z) :
  thermal_free (fp_device_open cls c usb)
  /\ thermal_free (fp_device_close cls c)
  /\ thermal_free (fp_device_list_prints cls c).
Proof.
  repeat split; apply thermal_free_intro; intros s; exec_unfold.
  - exec_cases; thermal_free_case.
  - exec_cases; thermal_free_case.
  - exec_cases; thermal_free_case.
Qed.

(* ================================================================== *)
(** ** Operations on a suspended device *)
(* ================================================================== *)

(** What close, enroll, verify, identify, capture, delete and list do on an
    open device that is suspended: they answer "busy" and call nothing
    else. *)
Lemma suspended_is_busy (cls : FpDeviceClass)
  (update_temp : bool -> FpDevicePrivate -> FpDevicePrivate)
  (op : Operation) (c : option GCancellable) (s : FpDevicePrivate) :
  checks_suspended op = true ->
  g_cancellable_is_cancelled c = false ->
  is_open s = true ->
  is_suspended s = true ->
  exec (start cls update_temp op c) s = Some (s, [busy_error]).
Proof.
  intros Hk Hc Ho Hs.
  destruct op; try discriminate Hk; exec_run;
    rewrite orb_true_r; reflexivity.
Qed.

(** What clear storage does on an open, idle device that is suspended, when
    the device has storage that can be cleared: it does not look at
    [is_suspended], records the operation and calls the driver. *)
Lemma clear_storage_ignores_suspended (cls : FpDeviceClass)
  (c : option GCancellable) (s : FpDevicePrivate) :
  g_cancellable_is_cancelled c = false ->
  is_open s = true ->
  current_task s = None ->
  has_feature_bit s FP_DEVICE_FEATURE_STORAGE = true ->
  has_feature_bit s FP_DEVICE_FEATURE_STORAGE_CLEAR = true ->
  exists s',
    exec (fp_device_clear_storage cls c) s
      = Some (s', [DriverCall entry_clear_storage])
    /\ current_action s' = FPI_DEVICE_ACTION_CLEAR_STORAGE
    /\ current_task s' = Some (g_task_new c)
    /\ is_suspended s' = is_suspended s.
Proof.
  exec_run. exec_cases; eexists; repeat split.
Qed.

(** C3, at the input where the code departs from it. On the open, idle,
    suspended device [dev_suspended], close, enroll, verify, identify,
    capture, delete and list answer "busy" and call nothing else, whereas
    clear storage does not answer "busy": it records itself as the active
    operation and calls the driver's clear-storage entry point. *)
Theorem clear_storage_on_suspended_device :
  is_open dev_suspended = true
  /\ is_suspended dev_suspended = true
  /\ current_task dev_suspended = None
  /\ (forall op, checks_suspended op = true ->
        exec (start moc_cls update_temp_instant op live) dev_suspended
          = Some (dev_suspended, [busy_error]))
  /\ exec (start moc_cls update_temp_instant op_clear_storage live)
          dev_suspended
     <> Some (dev_suspended, [busy_error])
  /\ calls_of (start moc_cls update_temp_instant op_clear_storage live)
              dev_suspended
     = Some [DriverCall entry_clear_storage]
  /\ current_action
       (after (start moc_cls update_temp_instant op_clear_storage live)
              dev_suspended)
     = FPI_DEVICE_ACTION_CLEAR_STORAGE.
Proof.
  split; [reflexivity|]. split; [reflexivity|]. split; [reflexivity|].
  split; [|split; [discriminate|split; reflexivity]].
  intros op Hk. apply suspended_is_busy; [exact Hk|reflexivity..].
Qed.

(* ================================================================== *)
(** ** The cancellation bridge *)
(* ================================================================== *)

(** The two branches of the idle cancellation. *)
Lemma idle_cancel_branches (cls : FpDeviceClass) (s : FpDevicePrivate) :
  cls_cancel cls = true ->
  current_action s <> FPI_DEVICE_ACTION_NONE ->
  exec (fp_device_cancel_in_idle_cb cls) s
    = if critical_section s =? 0
      then Some (set_finger_status FP_FINGER_STATUS_NONE
                   (set_current_idle_cancel_source false s),
                 [DriverCall entry_cancel;
                  ReportFingerStatus FP_FINGER_STATUS_NONE])
      else Some (set_finger_status FP_FINGER_STATUS_NONE
                   (set_cancel_queued true
                      (set_current_idle_cancel_source false s)),
                 [ReportFingerStatus FP_FINGER_STATUS_NONE]).
Proof.
  intros Hc Ha. exec_unfold. rewrite Hc.
  destruct (current_action s); try (exfalso; apply Ha; reflexivity);
    cbn; destruct (critical_section s =? 0); reflexivity.
Qed.

(** Without a cancel hook, or with no operation active, the callback stops
    on its assertions. *)
Lemma idle_cancel_asserts (cls : FpDeviceClass) (s : FpDevicePrivate) :
  cls_cancel cls = false \/ current_action s = FPI_DEVICE_ACTION_NONE ->
  exec (fp_device_cancel_in_idle_cb cls) s = None.
Proof.
  intros [H | H]; exec_unfold; rewrite H; cbn; try reflexivity.
  destruct (cls_cancel cls); reflexivity.
Qed.

(** C4, as amended. When the idle cancellation runs for an active operation
    of a driver with a cancel hook: inside a critical section the hook is
    not called and "cancel is queued" is set; outside, the hook is called
    and "cancel is queued" stays as it was; in both cases the
    finger-presence status is then reported and set to "none", whatever it
    was: after the hook outside a critical section, and without the hook
    having run inside one. *)
Theorem cancel_in_idle (cls : FpDeviceClass) (s : FpDevicePrivate) :
  cls_cancel cls = true ->
  current_action s <> FPI_DEVICE_ACTION_NONE ->
  exists s' l,
    exec (fp_device_cancel_in_idle_cb cls) s = Some (s', l)
    /\ (critical_section s <> 0 ->
        l = [ReportFingerStatus FP_FINGER_STATUS_NONE]
        /\ cancel_queued s' = true)
    /\ (critical_section s = 0 ->
        l = [DriverCall entry_cancel;
             ReportFingerStatus FP_FINGER_STATUS_NONE]
        /\ cancel_queued s' = cancel_queued s)
    /\ finger_status s' = FP_FINGER_STATUS_NONE
    /\ current_idle_cancel_source s' = false.
Proof.
  intros Hc Ha. rewrite (idle_cancel_branches cls s Hc Ha).
  destruct (critical_section s =? 0) eqn:Hz.
  - apply Z.eqb_eq in Hz. eexists; eexists. split; [reflexivity|].
    repeat split; intros; try reflexivity; contradiction.
  - apply Z.eqb_neq in Hz. eexists; eexists. split; [reflexivity|].
    repeat split; intros; try reflexivity; contradiction.
Qed.

Lemma cancel_in_idle_witness :
  exists s' l,
    exec (fp_device_cancel_in_idle_cb moc_cls) dev_enrolling_critical
      = Some (s', l)
    /\ (critical_section dev_enrolling_critical <> 0 ->
        l = [ReportFingerStatus FP_FINGER_STATUS_NONE]
        /\ cancel_queued s' = true)
    /\ (critical_section dev_enrolling_critical = 0 ->
        l = [DriverCall entry_cancel;
             ReportFingerStatus FP_FINGER_STATUS_NONE]
        /\ cancel_queued s' = cancel_queued dev_enrolling_critical)
    /\ finger_status s' = FP_FINGER_STATUS_NONE
    /\ current_idle_cancel_source s' = false.
Proof.
  apply (cancel_in_idle moc_cls dev_enrolling_critical); [reflexivity|].
  cbv. discriminate.
Defined.

(** C4 as stated fails: with the driver inside a critical section and a
    finger on the sensor, the idle cancellation clears the finger-presence
    status although the driver's cancel hook has not run. *)
Lemma critical_section_clears_status_without_hook :
  critical_section dev_enrolling_critical <> 0
  /\ current_idle_cancel_source dev_enrolling_critical = true
  /\ finger_status dev_enrolling_critical = FP_FINGER_STATUS_PRESENT
  /\ calls_of (idle_turn moc_cls) dev_enrolling_critical
     = Some [ReportFingerStatus FP_FINGER_STATUS_NONE]
  /\ ~ In (DriverCall entry_cancel)
          [ReportFingerStatus FP_FINGER_STATUS_NONE]
  /\ finger_status (after (idle_turn moc_cls) dev_enrolling_critical)
     = FP_FINGER_STATUS_NONE
  /\ cancel_queued (after (idle_turn moc_cls) dev_enrolling_critical) = true.
Proof.
  repeat split; try discriminate.
  cbn. intros [H | []]. discriminate H.
Qed.

(** The whole path outside a critical section: the task's cancellable
    fires, the internal one follows and queues the idle source, and the
    next idle turn calls the hook and then clears the status. *)
Example cancellation_reaches_driver :
  calls_of (bind (fp_device_task_cancelled_cb) (fun _ => idle_turn moc_cls))
           (set_finger_status FP_FINGER_STATUS_PRESENT dev_enrolling)
    = Some [DriverCall entry_cancel;
            ReportFingerStatus FP_FINGER_STATUS_NONE].
Proof. reflexivity. Qed.

(* ================================================================== *)
(** ** Suspend and resume *)
(* ================================================================== *)

(** C6, as amended. Suspend answers "busy" if a suspend or resume is
    pending or the device is already suspended; if not, it answers
    "removed" if the device has been removed; if not, it keeps its task as
    the pending suspend/resume and calls [fpi_device_suspend].  Resume does
    the same with "not suspended" in the place of "already suspended".  The
    busy test comes first in both, so that a removed device can answer
    "busy".  Neither looks at whether the device is open or at the active
    operation: with any other value of these the calls are the same. *)
Theorem suspend_resume_checks (c : option GCancellable)
  (s : FpDevicePrivate) :
  exec (fp_device_suspend c) s
    = Some (if is_some (suspend_resume_task s) || is_suspended s
            then (s, [busy_error])
            else if is_removed s
                 then (s, [TaskReturnError
                             (fpi_device_error_new FP_DEVICE_ERROR_REMOVED)])
                 else (set_suspend_resume_task (Some (g_task_new c)) s,
                       [FpiDeviceSuspend]))
  /\ exec (fp_device_resume c) s
     = Some (if is_some (suspend_resume_task s) || negb (is_suspended s)
             then (s, [busy_error])
             else if is_removed s
                  then (s, [TaskReturnError
                              (fpi_device_error_new FP_DEVICE_ERROR_REMOVED)])
                  else (set_suspend_resume_task (Some (g_task_new c)) s,
                        [FpiDeviceResume]))
  /\ (forall o t a,
        calls_of (fp_device_suspend c)
          (set_is_open o (set_current_task t (set_current_action a s)))
          = calls_of (fp_device_suspend c) s
        /\ calls_of (fp_device_resume c)
             (set_is_open o (set_current_task t (set_current_action a s)))
           = calls_of (fp_device_resume c) s).
Proof.
  split; [|split].
  - exec_unfold. exec_cases; reflexivity.
  - exec_unfold. exec_cases; reflexivity.
  - intros o t a. split; exec_unfold; cbn; exec_cases; reflexivity.
Qed.

(** C6 as stated fails: resume on a device that has been removed and is not
    suspended answers "busy", not "removed"; so does suspend on a removed
    device that is suspended. *)
Lemma removed_device_answers_busy :
  is_removed dev_removed = true
  /\ suspend_resume_task dev_removed = None
  /\ exec (fp_device_resume live) dev_removed
     = Some (dev_removed, [busy_error])
  /\ exec (fp_device_resume live) dev_removed
     <> Some (dev_removed,
              [TaskReturnError
                 (fpi_device_error_new FP_DEVICE_ERROR_REMOVED)])
  /\ exec (fp_device_suspend live) (set_is_suspended true dev_removed)
     = Some (set_is_suspended true dev_removed, [busy_error]).
Proof. repeat split. discriminate. Qed.

(* ================================================================== *)
(** ** Cancellation at entry, blocking variants *)
(* ================================================================== *)

Ltac sync_unfold :=
  cbv [blocking_answer task_result start_sync
       fp_device_open_sync fp_device_close_sync fp_device_enroll_sync
       fp_device_verify_sync fp_device_identify_sync fp_device_capture_sync
       fp_device_delete_print_sync fp_device_list_prints_sync
       fp_device_clear_storage_sync fp_device_suspend_sync
       fp_device_resume_sync call];
  exec_unfold.

(** The blocking list never looks at its cancellable: it does what the
    asynchronous list does without one. *)
Lemma list_prints_sync_without_cancellable (cls : FpDeviceClass)
  (c : option GCancellable) (s : FpDevicePrivate) :
  exec (fp_device_list_prints_sync cls c) s
    = exec (fp_device_list_prints cls None) s.
Proof.
  sync_unfold. exec_cases; reflexivity.
Qed.

(** The blocking variants of the eight other operations hand their
    cancellable on, and answer the cancellation error when it is already
    cancelled, whatever the device. *)
Lemma sync_cancelled_at_entry (cls : FpDeviceClass)
  (update_temp : bool -> FpDevicePrivate -> FpDevicePrivate)
  (op : Operation) (s : FpDevicePrivate) :
  op <> op_list ->
  exec (start_sync cls update_temp op dead) s
    = Some (s, [TaskReturnError G_IO_ERROR_CANCELLED])
  /\ blocking_answer (start_sync cls update_temp op dead) s
     = Some (sync_result (task_error G_IO_ERROR_CANCELLED)).
Proof.
  intros Hop. destruct op; try (exfalso; apply Hop; reflexivity);
    split; reflexivity.
Qed.

(** C10, at the input where the code departs from it.  With a cancellable
    that is already cancelled, each of the nine asynchronous entry points,
    and the blocking variant of each operation but list, resolves with the
    cancellation error whatever the device, calls nothing else and leaves
    the device as it was.  The blocking variant of list does not: it hands
    NULL on in the place of its cancellable, so that on the open, idle
    device [dev_open] it records list as the active operation and calls the
    driver's list entry point, on a closed device it answers "not open" and
    on a device with an operation pending "busy".  Suspend and resume, in
    both variants, make the same calls whatever their cancellable. *)
Theorem list_prints_sync_drops_cancellable :
  (forall cls update_temp op s,
      exec (start cls update_temp op dead) s
        = Some (s, [TaskReturnError G_IO_ERROR_CANCELLED]))
  /\ (forall cls update_temp op s,
         op <> op_list ->
         exec (start_sync cls update_temp op dead) s
           = Some (s, [TaskReturnError G_IO_ERROR_CANCELLED]))
  /\ exec (start_sync moc_cls update_temp_instant op_list dead) dev_open
     <> Some (dev_open, [TaskReturnError G_IO_ERROR_CANCELLED])
  /\ calls_of (fp_device_list_prints_sync moc_cls dead) dev_open
     = Some [DriverCall entry_list]
  /\ current_action (after (fp_device_list_prints_sync moc_cls dead) dev_open)
     = FPI_DEVICE_ACTION_LIST
  /\ current_task (after (fp_device_list_prints_sync moc_cls dead) dev_open)
     = Some (g_task_new None)
  /\ blocking_answer (fp_device_list_prints_sync moc_cls dead) dev_open
     = Some sync_waits_for_driver
  /\ blocking_answer (fp_device_list_prints_sync moc_cls dead) dev_closed
     = Some (sync_result
               (task_error (fpi_device_error_new FP_DEVICE_ERROR_NOT_OPEN)))
  /\ blocking_answer (fp_device_list_prints_sync moc_cls dead) dev_enrolling
     = Some (sync_result
               (task_error (fpi_device_error_new FP_DEVICE_ERROR_BUSY)))
  /\ (forall c s,
         calls_of (fp_device_suspend_sync c) s
           = calls_of (fp_device_suspend None) s
         /\ calls_of (fp_device_resume_sync c) s
            = calls_of (fp_device_resume None) s
         /\ calls_of (fp_device_suspend c) s
            = calls_of (fp_device_suspend None) s
         /\ calls_of (fp_device_resume c) s
            = calls_of (fp_device_resume None) s).
Proof.
  split; [intros cls update_temp op s; destruct op; reflexivity|].
  split; [intros cls update_temp op s Hop;
          apply (sync_cancelled_at_entry cls update_temp op s Hop)|].
  split; [discriminate|].
  do 6 (split; [reflexivity|]).
  intros c s. repeat split; sync_unfold; exec_cases; reflexivity.
Qed.

(* ================================================================== *)
(** ** Feature introspection *)
(* ================================================================== *)

Lemma land_lor_mask (f a b : Z) :
  Z.land f (Z.lor a b) = Z.lor a b
  <-> Z.land f a = a /\ Z.land f b = b.
Proof.
  split.
  - intros H. split; apply Z.bits_inj; intros n;
      apply (f_equal (fun x => Z.testbit x n)) in H;
      rewrite Z.land_spec, Z.lor_spec in H; rewrite Z.land_spec;
      destruct (Z.testbit f n), (Z.testbit a n), (Z.testbit b n);
      cbn in *; congruence.
  - intros [Ha Hb]. rewrite Z.land_lor_distr_r, Ha, Hb. reflexivity.
Qed.

(** X1. Asking for two sets of features at once is asking for each: for
    masks that are not empty, [fp_device_has_feature] of their union is the
    conjunction of the two answers. *)
Theorem has_feature_union (s : FpDevicePrivate) (a b : FpDeviceFeature) :
  a <> FP_DEVICE_FEATURE_NONE ->
  b <> FP_DEVICE_FEATURE_NONE ->
  fp_device_has_feature s (Z.lor a b)
    = fp_device_has_feature s a && fp_device_has_feature s b.
Proof.
  unfold fp_device_has_feature, fp_device_get_features,
    FP_DEVICE_FEATURE_NONE.
  intros Ha Hb.
  assert (Hab : Z.lor a b <> 0).
  { intros H. apply Z.lor_eq_0_iff in H. tauto. }
  apply Z.eqb_neq in Ha, Hb, Hab. rewrite Ha, Hb, Hab.
  apply eq_true_iff_eq. rewrite andb_true_iff, !Z.eqb_eq.
  apply land_lor_mask.
Qed.

Lemma has_feature_union_witness :
  fp_device_has_feature dev_open
    (Z.lor FP_DEVICE_FEATURE_VERIFY FP_DEVICE_FEATURE_CAPTURE)
    = fp_device_has_feature dev_open FP_DEVICE_FEATURE_VERIFY
      && fp_device_has_feature dev_open FP_DEVICE_FEATURE_CAPTURE.
Proof.
  apply (has_feature_union dev_open FP_DEVICE_FEATURE_VERIFY
           FP_DEVICE_FEATURE_CAPTURE); discriminate.
Defined.

Lemma land_single_bit (f k : Z) :
  0 <= k ->
  Z.land f (Z.shiftl 1 k) = if Z.testbit f k then Z.shiftl 1 k else 0.
Proof.
  intros Hk. rewrite Z.shiftl_1_l. apply Z.bits_inj'. intros n Hn.
  rewrite Z.land_spec, Z.pow2_bits_eqb by assumption.
  destruct (Z.eqb_spec k n) as [-> | Hne].
  - destruct (Z.testbit f n) eqn:E.
    + rewrite Z.pow2_bits_eqb, Z.eqb_refl by assumption. reflexivity.
    + rewrite Z.bits_0. reflexivity.
  - rewrite andb_false_r.
    destruct (Z.testbit f k).
    + rewrite Z.pow2_bits_eqb by assumption.
      symmetry. apply Z.eqb_neq. assumption.
    + rewrite Z.bits_0. reflexivity.
Qed.

(** X2. For a feature that is a single bit, the test the entry points make
    ([priv->features & feature] as a condition) and the public
    [fp_device_has_feature] agree. *)
Theorem single_feature_tests_agree (s : FpDevicePrivate) (k : Z) :
  0 <= k ->
  has_feature_bit s (Z.shiftl 1 k) = fp_device_has_feature s (Z.shiftl 1 k).
Proof.
  intros Hk.
  unfold has_feature_bit, fp_device_has_feature, fp_device_get_features,
    FP_DEVICE_FEATURE_NONE.
  assert (Hp : 0 < Z.shiftl 1 k).
  { rewrite Z.shiftl_1_l. apply Z.pow_pos_nonneg; lia. }
  assert (Hz : (Z.shiftl 1 k =? 0) = false) by (apply Z.eqb_neq; lia).
  rewrite Hz, land_single_bit by assumption.
  destruct (Z.testbit (features s) k).
  - rewrite Hz, Z.eqb_refl. reflexivity.
  - rewrite Z.eqb_refl. change (negb true) with false.
    symmetry. apply Z.eqb_neq. lia.
Qed.

Lemma single_feature_tests_agree_witness :
  has_feature_bit dev_open FP_DEVICE_FEATURE_STORAGE_CLEAR
    = fp_device_has_feature dev_open FP_DEVICE_FEATURE_STORAGE_CLEAR.
Proof.
  apply (single_feature_tests_agree dev_open 6). lia.
Defined.

(** With a mask of several bits the two tests differ: the condition of C
    holds as soon as one bit is there, [fp_device_has_feature] wants all. *)
Example several_features_tests_differ :
  has_feature_bit dev_open
    (Z.lor FP_DEVICE_FEATURE_VERIFY FP_DEVICE_FEATURE_CAPTURE) = true
  /\ fp_device_has_feature dev_open
       (Z.lor FP_DEVICE_FEATURE_VERIFY FP_DEVICE_FEATURE_CAPTURE) = false.
Proof. split; reflexivity. Qed.

(* ================================================================== *)
(** ** Whole runs of the entry points *)
(* ================================================================== *)

(** The two ways a call of an operation ends: the new task is resolved
    once and no driver entry point is called, or nothing is resolved, the
    task is the pending one and the driver's entry point is called. *)
Lemma start_shape (cls : FpDeviceClass)
  (update_temp : bool -> FpDevicePrivate -> FpDevicePrivate)
  (op : Operation) (c : option GCancellable) (s : FpDevicePrivate) :
  exists s' l,
    exec (start cls update_temp op c) s = Some (s', l)
    /\ ((driver_calls l = [] /\ resolutions l = 1%nat
         /\ ((s' = s /\ thermal_calls l = [])
             \/ (s' = update_temp false (update_temp true s)
                 /\ thermal_calls l = [true; false]
                 /\ is_biometric op = true)))
        \/ (driver_calls l = [entry_of op] /\ resolutions l = 0%nat
            /\ current_task s' = Some (mkTask c (task_data_of op))
            /\ current_action s' = action_of op
            /\ thermal_calls l = (if is_biometric op then [true] else []))).
Proof.
  destruct op as [usb| |[print|]|print|[prints|]|wait|print| |];
    exec_unfold; exec_cases;
    (eexists; eexists; split; [reflexivity|]);
    first
      [ left; split; [reflexivity|]; split; [reflexivity|];
        first [ left; split; reflexivity
              | right; split; [reflexivity|]; split; reflexivity ]
      | right; repeat split; reflexivity ].
Qed.

(** A call on a device whose slot is taken resolves with one error and
    leaves the device as it was. *)
Lemma start_on_taken_slot (cls : FpDeviceClass)
  (update_temp : bool -> FpDevicePrivate -> FpDevicePrivate)
  (op : Operation) (c : option GCancellable) (s : FpDevicePrivate) :
  is_some (current_task s) = true ->
  exists e, exec (start cls update_temp op c) s
            = Some (s, [TaskReturnError e]).
Proof.
  intros Hp. destruct op; exec_unfold;
    destruct (g_cancellable_is_cancelled c); cbn;
    try (eexists; reflexivity);
    destruct (is_open s); cbn; try (eexists; reflexivity);
    rewrite Hp; eexists; reflexivity.
Qed.

(** X3. Every call of open, close, enroll, verify, identify, capture,
    delete, list or clear storage ends, and in one of two ways: the new
    task is resolved exactly once and no driver entry point is called, or
    the task is not resolved and exactly one driver entry point, that of
    the operation, is called. *)
Theorem start_resolves_or_dispatches (cls : FpDeviceClass)
  (update_temp : bool -> FpDevicePrivate -> FpDevicePrivate)
  (op : Operation) (c : option GCancellable) (s : FpDevicePrivate) :
  exists s' l,
    exec (start cls update_temp op c) s = Some (s', l)
    /\ ((resolutions l = 1%nat /\ driver_calls l = [])
        \/ (resolutions l = 0%nat /\ driver_calls l = [entry_of op])).
Proof.
  destruct (start_shape cls update_temp op c s)
    as (s' & l & He & [(Hd & Hr & _) | (Hd & Hr & _)]);
    exists s', l; split; try exact He; [left | right]; split; assumption.
Qed.

(** X4. The calls to the thermal model are balanced: an operation that is
    not enroll, verify, identify or capture makes none; one of these four
    makes none (an earlier check failed), or marks the model active and
    then inactive again without calling the driver ("too hot"), or marks
    it active and calls the driver. *)
Theorem thermal_calls_balanced (cls : FpDeviceClass)
  (update_temp : bool -> FpDevicePrivate -> FpDevicePrivate)
  (op : Operation) (c : option GCancellable) (s : FpDevicePrivate) :
  exists s' l,
    exec (start cls update_temp op c) s = Some (s', l)
    /\ (is_biometric op = false -> thermal_calls l = [])
    /\ (thermal_calls l = []
        \/ (thermal_calls l = [true; false] /\ driver_calls l = [])
        \/ (thermal_calls l = [true] /\ driver_calls l = [entry_of op])).
Proof.
  destruct (start_shape cls update_temp op c s)
    as (s' & l & He
        & [(Hd & Hr & [[_ Ht] | (_ & Ht & Hb)])
          | (Hd & Hr & _ & _ & Ht)]);
    exists s', l; (split; [exact He|]).
  - split; [intros _; exact Ht | left; exact Ht].
  - split; [intros Hn; congruence | right; left; split; assumption].
  - destruct (is_biometric op); split;
      try (intros Hn; congruence); try (intros _; exact Ht);
      [right; right; split; assumption | left; exact Ht].
Qed.

(** X5. Once a call has reached the driver, no other call does until the
    operation completes: on the device that call leaves, every further
    operation resolves at once with one error, calls nothing and changes
    nothing. *)
Theorem one_operation_at_a_time (cls : FpDeviceClass)
  (update_temp : bool -> FpDevicePrivate -> FpDevicePrivate)
  (op1 op2 : Operation) (c1 c2 : option GCancellable)
  (s : FpDevicePrivate) :
  reaches_driver (start cls update_temp op1 c1) s = true ->
  exists e,
    exec (start cls update_temp op2 c2)
         (after (start cls update_temp op1 c1) s)
      = Some (after (start cls update_temp op1 c1) s, [TaskReturnError e]).
Proof.
  intros Hd.
  destruct (start_shape cls update_temp op1 c1 s)
    as (s1 & l1 & He & [(Hn & _) | (_ & _ & Ht & _)]).
  - unfold reaches_driver, calls_of in Hd. rewrite He in Hd. cbn in Hd.
    rewrite Hn in Hd. discriminate Hd.
  - unfold after. rewrite He.
    apply start_on_taken_slot. rewrite Ht. reflexivity.
Qed.

Lemma one_operation_at_a_time_witness :
  exists e,
    exec (start moc_cls update_temp_instant op_close live)
         (after (start moc_cls update_temp_instant
                   (op_enroll (Some fresh_print)) live) dev_open)
      = Some (after (start moc_cls update_temp_instant
                       (op_enroll (Some fresh_print)) live) dev_open,
              [TaskReturnError e]).
Proof.
  apply (one_operation_at_a_time moc_cls update_temp_instant
           (op_enroll (Some fresh_print)) op_close live live dev_open).
  reflexivity.
Defined.

(** X6. What a call that passes every check leaves behind.  On a device
    that is idle and not suspended, an operation whose cancellable is not
    cancelled and whose checks pass (openness, support and argument, a USB
    device that opens, a sensor that is not hot) makes the calls of its
    prelude and then, last, the call of its driver entry point; the device
    then records the action of the operation, holds the task with the data
    of the operation, has a fresh internal cancellable, its handler
    connected if the driver has a cancel hook, and the handler of the
    caller's cancellable connected if there is one. *)
Theorem start_arms_operation (cls : FpDeviceClass)
  (update_temp : bool -> FpDevicePrivate -> FpDevicePrivate)
  (op : Operation) (c : option GCancellable) (s : FpDevicePrivate) :
  g_cancellable_is_cancelled c = false ->
  openness_ok op s = true ->
  current_task s = None ->
  is_suspended s = false ->
  admissible cls op s = true ->
  (is_biometric op = true ->
   is_hot (temp_current (update_temp true s)) = false) ->
  exists s',
    exec (start cls update_temp op c) s
      = Some (s', prelude_of op s ++ [DriverCall (entry_of op)])
    /\ current_action s' = action_of op
    /\ current_task s' = Some (mkTask c (task_data_of op))
    /\ current_cancellable s' = Some g_cancellable_new
    /\ (cls_cancel cls = true -> current_cancellable_id s' = true)
    /\ (is_some c = true -> current_task_cancellable_id s' = true).
Proof.
  intros Hc Ho Ht Hs Ha Hh.
  destruct op as [usb| |[print|]|print|[prints|]|wait|print| |];
    cbn [openness_ok admissible biometric_admissible is_biometric] in *;
    try discriminate Ha;
    try specialize (Hh eq_refl);
    try (apply negb_true_iff in Ho);
    repeat match goal with
           | H : _ && _ = true |- _ =>
               apply andb_prop in H; destruct H
           end.
  - (* open *)
    exec_unfold. exec_rewrite. cbv [prelude_of].
    destruct (dev_type s); [| |destruct usb; [discriminate Ha|]];
      exec_cases; eexists; repeat split; intros; try discriminate;
      reflexivity.
  - exec_run. exec_cases; eexists; repeat split; intros;
      try discriminate; reflexivity.
  - (* enroll *)
    exec_unfold. exec_rewrite.
    destruct (is_print_undefined (fpi_type print)); cbn in *.
    + rewrite Hh. cbn.
      exec_cases; eexists; repeat split; intros; try discriminate;
        reflexivity.
    + apply andb_prop in Ha. destruct Ha as [Hu Hk]. rewrite Hu, Hk. cbn.
      rewrite Hh. cbn.
      exec_cases; eexists; repeat split; intros; try discriminate;
        reflexivity.
  - exec_run. exec_cases; eexists; repeat split; intros;
      try discriminate; reflexivity.
  - exec_run. exec_cases; eexists; repeat split; intros;
      try discriminate; reflexivity.
  - exec_run. exec_cases; eexists; repeat split; intros;
      try discriminate; reflexivity.
  - exec_run. exec_cases; eexists; repeat split; intros;
      try discriminate; reflexivity.
  - exec_run. exec_cases; eexists; repeat split; intros;
      try discriminate; reflexivity.
  - exec_run. exec_cases; eexists; repeat split; intros;
      try discriminate; reflexivity.
Qed.

Lemma start_arms_operation_witness :
  exists s',
    exec (start moc_cls update_temp_instant (op_identify (Some [fresh_print]))
            live) dev_open
      = Some (s', prelude_of (op_identify (Some [fresh_print])) dev_open
                  ++ [DriverCall (entry_of (op_identify (Some [fresh_print])))])
    /\ current_action s' = action_of (op_identify (Some [fresh_print]))
    /\ current_task s'
       = Some (mkTask live (task_data_of (op_identify (Some [fresh_print]))))
    /\ current_cancellable s' = Some g_cancellable_new
    /\ (cls_cancel moc_cls = true -> current_cancellable_id s' = true)
    /\ (is_some live = true -> current_task_cancellable_id s' = true).
Proof.
  apply (start_arms_operation moc_cls update_temp_instant
           (op_identify (Some [fresh_print])) live dev_open);
    reflexivity.
Defined.

(* ================================================================== *)
(** ** What the entry points keep *)
(* ================================================================== *)

Lemma thermal_only_instant : thermal_only update_temp_instant.
Proof.
  intros b s. unfold update_temp_instant.
  destruct (temp_hot_seconds s <? 0).
  - exists (thermal_of s). destruct s; reflexivity.
  - exists (temp_current s, b, temp_hot_seconds s, temp_cold_seconds s,
            temp_last_update s).
    destruct s; reflexivity.
Qed.

(** Replaces the runs of a thermal model that changes the temperature
    members only by these changes, where the goal has such runs. *)
Ltac use_thermal_only H s :=
  lazymatch type of H with
  | thermal_only ?f =>
      lazymatch goal with
      | |- context [f] =>
          let t1 := fresh "t" in
          let E1 := fresh "E" in
          destruct (H true s) as [t1 E1];
          let t2 := fresh "t" in
          let E2 := fresh "E" in
          destruct (H false (with_thermal t1 s)) as [t2 E2];
          destruct t1 as [[[[? ?] ?] ?] ?];
          destruct t2 as [[[[? ?] ?] ?] ?];
          cbn [with_thermal] in E1, E2
      | |- _ => idtac
      end
  end.



(** X8. The active-operation slot stays coherent: if an action is recorded
    exactly when a task is pending, this is still so after every call of
    an operation, of suspend, of resume and of the cancellation path (with
    a thermal model that changes the temperature members only). *)
Theorem slot_stays_coherent (cls : FpDeviceClass)
  (update_temp : bool -> FpDevicePrivate -> FpDevicePrivate)
  (op : Operation) (c : option GCancellable) (resume : bool)
  (s : FpDevicePrivate) :
  thermal_only update_temp ->
  slot_coherent s ->
  slot_coherent (after (start cls update_temp op c) s)
  /\ slot_coherent (after (suspend_or_resume resume c) s)
  /\ slot_coherent (after (cancel_then_idle cls) s).
Proof.
  unfold slot_coherent. intros Hupd Hs. split; [|split].
  - destruct op as [usb| |[print|]|print|[prints|]|wait|print| |];
      exec_unfold; use_thermal_only Hupd s; exec_cases;
      first [exact Hs | reflexivity].
  - destruct resume; cbv [suspend_or_resume]; exec_unfold; exec_cases;
      first [exact Hs | reflexivity].
  - cbv [cancel_then_idle]. exec_unfold.
    destruct (current_cancellable s) as [[[]]|]; cbn;
      exec_cases; try (first [exact Hs | reflexivity]);
      destruct (current_action s); cbn in *; exec_cases;
      first [exact Hs | reflexivity].
Qed.

Lemma slot_stays_coherent_witness :
  slot_coherent (after (start moc_cls update_temp_instant
                          (op_verify fresh_print) live) dev_open)
  /\ slot_coherent (after (suspend_or_resume true live) dev_open)
  /\ slot_coherent (after (cancel_then_idle moc_cls) dev_open).
Proof.
  apply (slot_stays_coherent moc_cls update_temp_instant
           (op_verify fresh_print) live true dev_open).
  - exact thermal_only_instant.
  - reflexivity.
Defined.

(* ================================================================== *)
(** ** Cancellation of a running operation *)
(* ================================================================== *)

(** Closes a case whose tests contradict each other. *)
Ltac absurd_tests :=
  exfalso;
  match goal with
  | H1 : ?x = true, H2 : ?x = false |- _ =>
      rewrite H1 in H2; discriminate H2
  | H : true = false |- _ => discriminate H
  | H : false = true |- _ => discriminate H
  end.

(** The cancellation path on a device whose internal cancellable is fresh,
    with its handler connected exactly when the driver has a cancel hook,
    no idle cancellation queued and an action recorded. *)
Lemma cancel_then_idle_on_armed (cls : FpDeviceClass) (s : FpDevicePrivate) :
  current_cancellable s = Some g_cancellable_new ->
  current_cancellable_id s = cls_cancel cls ->
  current_idle_cancel_source s = false ->
  is_action_none (current_action s) = false ->
  calls_of (cancel_then_idle cls) s
    = Some (if cls_cancel cls
            then if critical_section s =? 0
                 then [DriverCall entry_cancel;
                       ReportFingerStatus FP_FINGER_STATUS_NONE]
                 else [ReportFingerStatus FP_FINGER_STATUS_NONE]
            else []).
Proof.
  intros Hc Hid Hsrc Ha.
  cbv [cancel_then_idle]. exec_unfold. rewrite Hc. cbn.
  rewrite Hid.
  destruct (cls_cancel cls) eqn:Hcc; cbn.
  - rewrite Ha. cbn.
    destruct (critical_section s =? 0); reflexivity.
  - rewrite Hsrc. reflexivity.
Qed.

(** A call that reaches the driver from a device at rest leaves it so
    armed. *)
Lemma started_is_armed (cls : FpDeviceClass)
  (update_temp : bool -> FpDevicePrivate -> FpDevicePrivate)
  (op : Operation) (c : option GCancellable) (s : FpDevicePrivate) :
  thermal_only update_temp ->
  at_rest s ->
  reaches_driver (start cls update_temp op c) s = true ->
  current_cancellable (after (start cls update_temp op c) s)
    = Some g_cancellable_new
  /\ current_cancellable_id (after (start cls update_temp op c) s)
     = cls_cancel cls
  /\ current_idle_cancel_source (after (start cls update_temp op c) s)
     = false
  /\ is_action_none (current_action (after (start cls update_temp op c) s))
     = false
  /\ critical_section (after (start cls update_temp op c) s)
     = critical_section s.
Proof.
  intros Hupd (Ht & Hid & Hsrc) Hd. revert Hd.
  destruct op as [usb| |[print|]|print|[prints|]|wait|print| |];
    cbv [reaches_driver driver_calls]; exec_unfold;
    use_thermal_only Hupd s; exec_cases; intros Hd;
    first [discriminate Hd | repeat split; assumption].
Qed.

(** X9. Cancelling an operation that was started on a device at rest never
    trips the assertions of the idle callback, and tells the driver at most
    once: when the caller's cancellable fires and the event loop takes an
    idle turn, a driver with a cancel hook gets the call of the hook
    followed by the report of "no finger", or, inside a critical section,
    the report alone; a driver without a cancel hook gets nothing, no idle
    source having been queued. *)
Theorem cancellation_of_started_operation (cls : FpDeviceClass)
  (update_temp : bool -> FpDevicePrivate -> FpDevicePrivate)
  (op : Operation) (c : option GCancellable) (s : FpDevicePrivate) :
  thermal_only update_temp ->
  at_rest s ->
  reaches_driver (start cls update_temp op c) s = true ->
  calls_of (cancel_then_idle cls) (after (start cls update_temp op c) s)
    = Some (if cls_cancel cls
            then if critical_section s =? 0
                 then [DriverCall entry_cancel;
                       ReportFingerStatus FP_FINGER_STATUS_NONE]
                 else [ReportFingerStatus FP_FINGER_STATUS_NONE]
            else []).
Proof.
  intros Hupd Hr Hd.
  destruct (started_is_armed cls update_temp op c s Hupd Hr Hd)
    as (Hc & Hid & Hsrc & Ha & Hcs).
  rewrite <- Hcs.
  apply cancel_then_idle_on_armed; assumption.
Qed.

Lemma cancellation_of_started_operation_witness :
  calls_of (cancel_then_idle moc_cls)
           (after (start moc_cls update_temp_instant
                     (op_enroll (Some fresh_print)) live) dev_open)
    = Some (if cls_cancel moc_cls
            then if critical_section dev_open =? 0
                 then [DriverCall entry_cancel;
                       ReportFingerStatus FP_FINGER_STATUS_NONE]
                 else [ReportFingerStatus FP_FINGER_STATUS_NONE]
            else []).
Proof.
  apply (cancellation_of_started_operation moc_cls update_temp_instant
           (op_enroll (Some fresh_print)) live dev_open).
  - exact thermal_only_instant.
  - repeat split.
  - reflexivity.
Defined.
(* ================================================================== *)
(** ** Suspend and resume, one after the other *)
(* ================================================================== *)



(* ================================================================== *)
(** ** Support as the introspection functions and the entry points see it *)
(* ================================================================== *)

(** X11. [fp_device_supports_identify] and [fp_device_supports_capture]
    answer FALSE exactly when, on an open, idle device that is not
    suspended, identify and capture called with a cancellable that is not
    cancelled resolve with "not supported". *)
Theorem supports_agrees_with_entry_points (cls : FpDeviceClass)
  (update_temp : bool -> FpDevicePrivate -> FpDevicePrivate)
  (prints : option (list FpPrint)) (wait : bool)
  (c : option GCancellable) (s : FpDevicePrivate) :
  g_cancellable_is_cancelled c = false ->
  is_open s = true ->
  current_task s = None ->
  is_suspended s = false ->
  (fp_device_supports_identify cls s = false
   <-> exec (fp_device_identify cls update_temp prints c) s
       = Some (s, [TaskReturnError
                     (fpi_device_error_new FP_DEVICE_ERROR_NOT_SUPPORTED)]))
  /\ (fp_device_supports_capture cls s = false
      <-> exec (fp_device_capture cls update_temp wait c) s
          = Some (s, [TaskReturnError
                        (fpi_device_error_new
                           FP_DEVICE_ERROR_NOT_SUPPORTED)])).
Proof.
  intros Hc Ho Ht Hs.
  unfold fp_device_supports_identify, fp_device_supports_capture.
  rewrite !negb_involutive.
  split.
  - destruct (cls_identify cls) eqn:Hi;
      destruct (has_feature_bit s FP_DEVICE_FEATURE_IDENTIFY) eqn:Hf;
      (split; [intros Hn; try discriminate Hn; exec_run; reflexivity|]);
      try (intros _; reflexivity).
    intros H. exfalso. revert H. exec_unfold. exec_rewrite.
    destruct prints; cbn; exec_cases; intros H; discriminate H.
  - destruct (cls_capture cls) eqn:Hi;
      destruct (has_feature_bit s FP_DEVICE_FEATURE_CAPTURE) eqn:Hf;
      (split; [intros Hn; try discriminate Hn; exec_run; reflexivity|]);
      try (intros _; reflexivity).
    intros H. exfalso. revert H. exec_unfold. exec_rewrite.
    exec_cases; intros H; discriminate H.
Qed.

Lemma supports_agrees_with_entry_points_witness :
  (fp_device_supports_identify moc_cls dev_open = false
   <-> exec (fp_device_identify moc_cls update_temp_instant
               (Some [fresh_print]) live) dev_open
       = Some (dev_open,
               [TaskReturnError
                  (fpi_device_error_new FP_DEVICE_ERROR_NOT_SUPPORTED)]))
  /\ (fp_device_supports_capture moc_cls dev_open = false
      <-> exec (fp_device_capture moc_cls update_temp_instant true live)
               dev_open
          = Some (dev_open,
                  [TaskReturnError
                     (fpi_device_error_new FP_DEVICE_ERROR_NOT_SUPPORTED)])).
Proof.
  apply (supports_agrees_with_entry_points moc_cls update_temp_instant
           (Some [fresh_print]) true live dev_open); reflexivity.
Defined.

(** X12. On a device without storage ([fp_device_has_storage] FALSE), open
    and idle, list and clear storage called with a cancellable that is not
    cancelled resolve with "not supported" and call nothing else. *)
Theorem no_storage_is_not_supported (cls : FpDeviceClass)
  (c : option GCancellable) (s : FpDevicePrivate) :
  g_cancellable_is_cancelled c = false ->
  is_open s = true ->
  current_task s = None ->
  is_suspended s = false ->
  fp_device_has_storage s = false ->
  exec (fp_device_list_prints cls c) s
    = Some (s, [TaskReturnError
                  (fpi_device_error_new FP_DEVICE_ERROR_NOT_SUPPORTED)])
  /\ exec (fp_device_clear_storage cls c) s
     = Some (s, [TaskReturnError
                   (fpi_device_error_new FP_DEVICE_ERROR_NOT_SUPPORTED)]).
Proof.
  unfold fp_device_has_storage. intros Hc Ho Ht Hs Hn.
  rewrite negb_involutive in Hn.
  split; exec_run; rewrite ?orb_true_r; reflexivity.
Qed.

Lemma no_storage_is_not_supported_witness :
  exec (fp_device_list_prints image_cls live) dev_image
    = Some (dev_image,
            [TaskReturnError
               (fpi_device_error_new FP_DEVICE_ERROR_NOT_SUPPORTED)])
  /\ exec (fp_device_clear_storage image_cls live) dev_image
     = Some (dev_image,
             [TaskReturnError
                (fpi_device_error_new FP_DEVICE_ERROR_NOT_SUPPORTED)]).
Proof.
  apply (no_storage_is_not_supported image_cls live dev_image); reflexivity.
Defined.

(** X13. Delete is safe to call on every device: whatever the driver, the
    device and the arguments, it ends and never resolves with "not
    supported". *)
Theorem delete_print_never_not_supported (cls : FpDeviceClass)
  (enrolled_print : FpPrint) (c : option GCancellable)
  (s : FpDevicePrivate) :
  exists s' l,
    exec (fp_device_delete_print cls enrolled_print c) s = Some (s', l)
    /\ ~ In (TaskReturnError
               (fpi_device_error_new FP_DEVICE_ERROR_NOT_SUPPORTED)) l.
Proof.
  exec_unfold. exec_cases; eexists; eexists; (split; [reflexivity|]);
    cbn; intros H;
    repeat match goal with
           | H : _ \/ _ |- _ => destruct H
           | H : False |- _ => destruct H
           | H : _ = _ |- _ => discriminate H
           end.
Qed.

(* ================================================================== *)
(** ** Construction *)
(* ================================================================== *)



(** X15. A device fresh from construction is closed and at rest: every
    operation but open, called with a cancellable that is not cancelled,
    resolves with "not open" and changes nothing, and open, when the USB
    device opens, reaches the driver's open entry point. *)
Theorem constructed_device_wants_open (dflt_hot dflt_cold : Z)
  (info : FpDeviceClassInfo) (now : Z) (cls : FpDeviceClass)
  (update_temp : bool -> FpDevicePrivate -> FpDevicePrivate)
  (op : Operation) (c : option GCancellable) (s : FpDevicePrivate) :
  fp_device_constructed dflt_hot dflt_cold info now = Some s ->
  g_cancellable_is_cancelled c = false ->
  at_rest s
  /\ slot_coherent s
  /\ exec (start cls update_temp op c) s
     = match op with
       | op_open usb =>
           match info_type info, usb with
           | FP_DEVICE_TYPE_USB, Some code =>
               Some (s, [UsbDeviceOpen;
                         TaskReturnError (g_usb_device_error code)])
           | _, _ =>
               Some (after (start cls update_temp op c) s,
                     prelude_of op s ++ [DriverCall entry_open])
           end
       | _ =>
           Some (s, [TaskReturnError
                       (fpi_device_error_new FP_DEVICE_ERROR_NOT_OPEN)])
       end.
Proof.
  unfold fp_device_constructed. intros H Hc.
  destruct (info_features info =? FP_DEVICE_FEATURE_NONE);
    [discriminate H|].
  destruct (constructed_temp_seconds dflt_hot dflt_cold info)
    as [[hot cold]|]; [|discriminate H].
  injection H as <-.
  split; [repeat split|]. split; [reflexivity|].
  destruct op as [usb| |[print|]|print|[prints|]|wait|print| |];
    exec_unfold; rewrite Hc; cbn; try reflexivity.
  destruct (info_type info); cbn; try destruct usb; cbn;
    destruct (cls_cancel cls); cbn; destruct (is_some c); reflexivity.
Qed.

Lemma constructed_device_wants_open_witness :
  at_rest dev_closed
  /\ slot_coherent dev_closed
  /\ exec (start moc_cls update_temp_instant op_list live) dev_closed
     = Some (dev_closed,
             [TaskReturnError
                (fpi_device_error_new FP_DEVICE_ERROR_NOT_OPEN)]).
Proof.
  apply (constructed_device_wants_open 180 540
           (mkClassInfo FP_DEVICE_TYPE_USB moc_features 0 0) 0
           moc_cls update_temp_instant op_list live dev_closed);
    reflexivity.
Defined.

(* ================================================================== *)
(** ** mafpmoc.h: the tables and the layouts *)
(* ================================================================== *)

(** X16. No two commands share an opcode and no two packet marks share a
    flag: from the value of a command, or of a mark, its name is found
    again; and every opcode and every flag fits the one byte the packet has
    for it. *)
Theorem mafpmoc_tables_are_injective (name : string) (v : Z) :
  (MafpmocProtocol.value_of name MafpmocProtocol.commands = Some v ->
   MafpmocProtocol.name_of v MafpmocProtocol.commands = Some name
   /\ 0 <= v < 256)
  /\ (MafpmocProtocol.value_of name MafpmocProtocol.MapfPackMark = Some v ->
      MafpmocProtocol.name_of v MafpmocProtocol.MapfPackMark = Some name
      /\ 0 <= v < 256).
Proof.
  split.
  - unfold MafpmocProtocol.commands, MafpmocProtocol.macro.
    cbn [MafpmocProtocol.value_of].
    repeat match goal with
           | |- context [String.eqb ?a name] =>
               destruct (String.eqb_spec a name) as [<- | _];
               [intros H; injection H as <-; split; [reflexivity | lia]|]
           end.
    intros H; discriminate H.
  - unfold MafpmocProtocol.MapfPackMark, MafpmocProtocol.macro.
    cbn [MafpmocProtocol.value_of].
    repeat match goal with
           | |- context [String.eqb ?a name] =>
               destruct (String.eqb_spec a name) as [<- | _];
               [intros H; injection H as <-; split; [reflexivity | lia]|]
           end.
    intros H; discriminate H.
Qed.

(** X17. The layouts of the answers: a whole answer (the result byte and
    the largest member of the union, the template table) is 258 bytes and
    fits the payload of one frame, with header and CRC in the USB buffer; a
    template record is 162 bytes; and the byte that counts the used slots of
    the template table cannot count the 256 slots of its list. *)
Theorem mafpmoc_answer_layouts :
  MafpmocProtocol.sizeof_mafp_cmd_response_t = 258
  /\ MafpmocProtocol.sizeof_mafp_cmd_response_t
     <= Mafpmoc.PACKAGE_DATA_SIZE_MAX
  /\ Mafpmoc.PACKAGE_HEADER_SIZE
     + MafpmocProtocol.sizeof_mafp_cmd_response_t
     + Mafpmoc.PACKAGE_CRC_SIZE <= Mafpmoc.MAFP_USB_BUFFER_SIZE
  /\ Mafpmoc.sizeof_packed Mafpmoc.mafp_tpl_table_t = 257
  /\ Mafpmoc.sizeof_packed Mafpmoc.mafp_template_t
     = Mafpmoc.DEVICE_SN_SIZE + Mafpmoc.TEMPLATE_ID_SIZE
       + Mafpmoc.TEMPLATE_UID_SIZE
  /\ Mafpmoc.sizeof_packed Mafpmoc.mafp_template_t = 162
  /\ Mafpmoc.sizeof_packed MafpmocProtocol.mafp_boot_handshake_t = 23
  /\ MafpmocProtocol.member_type "used_num" Mafpmoc.mafp_tpl_table_t
     = Some Mafpmoc.uint8_t
  /\ MafpmocProtocol.max_of_ctype Mafpmoc.uint8_t
     < Mafpmoc.member_count "list" Mafpmoc.mafp_tpl_table_t.
Proof. repeat split; try reflexivity; discriminate. Qed.
